(** * TGV tracker API: the station delay aggregation

    A shallow embedding of [supabase_utils.get_avg_delay_by_station] and of
    the [/api/delays] handler of [main.py], with the pandas operations the
    function chains ([to_numeric], [groupby().mean()], [reset_index],
    [sort_values], [head], [to_dict]) written out as list functions.

    Numbers.  A float64 cell is either [NaN] or a finite value; finite values
    are carried as exact rationals, so a mean is the exact quotient of a sum
    by a count.  IEEE rounding, overflow and the infinities are outside the
    model.

    Library behaviour that pandas leaves open is a field of the class
    [PandasRuntime]: which strings [to_numeric] accepts, and the permutation
    numpy's default [kind='quicksort'] argsort returns (it is a sorting
    permutation, and nothing is promised on equal keys). *)

From Stdlib Require Import List String Ascii Bool ZArith QArith Qreduction.
From Stdlib Require Import Lia Permutation Sorted OrdersEx DecimalString.
Import ListNotations.

Local Open Scope string_scope.
Local Open Scope Z_scope.

(** ** Values *)

(** A float64 as pandas holds it in the delay column. *)
Inductive float64 : Type :=
| Finite (q : Q)
| NaN.

Definition isnan (x : float64) : bool :=
  match x with NaN => true | Finite _ => false end.

(** IEEE comparison: every comparison with NaN is false. *)
Definition fle (x y : float64) : Prop :=
  match x, y with
  | Finite a, Finite b => (a <= b)%Q
  | _, _ => False
  end.

Definition fge (x y : float64) : Prop := fle y x.

(** The JSON value of the cell [retard_moyen_depart] as the store sends it. *)
Inductive json_cell : Type :=
| JNumber (q : Q)
| JString (s : string)
| JNull.

(** One element of [result.data]: the three selected columns. *)
Record db_row : Type := mk_row {
  gare_depart : option string;
  retard_moyen_depart : json_cell;
  service : option string
}.

(** One element of [avg_delays.to_dict('records')]. *)
Record avg_record : Type := mk_avg {
  avg_gare_depart : string;
  avg_retard_moyen_depart : float64
}.

(** ** What the libraries decide *)

Class PandasRuntime : Type := {
  (** the float a string cell is parsed to, [None] when it is not numeric *)
  str_to_float : string -> option Q;
  (** [numpy.argsort(kind='quicksort')] on a NaN-free array *)
  argsort : list Q -> list nat;
  argsort_perm : forall l, Permutation (argsort l) (seq 0 (List.length l));
  argsort_sorted :
    forall l, Sorted Qle (map (fun i => nth i l 0%Q) (argsort l))
}.

(** ** The pandas pipeline *)

Section Pipeline.

Context {P : PandasRuntime}.

(** [pd.to_numeric(cell, errors='coerce')] *)
Definition to_numeric (c : json_cell) : float64 :=
  match c with
  | JNumber q => Finite q
  | JString s => match str_to_float s with Some q => Finite q | None => NaN end
  | JNull => NaN
  end.

(** The frame after line 95: the key column and the coerced delay column. *)
Definition frame : Type := list (option string * float64).

Definition DataFrame (data : list db_row) : frame :=
  map (fun r => (gare_depart r, to_numeric (retard_moyen_depart r))) data.

(** [groupby('gare_depart')] has [sort=True] and [dropna=True]: the group
    keys are the distinct non-null stations in ascending order. *)
Fixpoint insert_key (k : string) (ks : list string) : list string :=
  match ks with
  | [] => [k]
  | k' :: rest =>
      match String_as_OT.compare k k' with
      | Lt => k :: ks
      | Eq => ks
      | Gt => k' :: insert_key k rest
      end
  end.

Definition station_keys (df : frame) : list string :=
  flat_map (fun r => match fst r with Some k => [k] | None => [] end) df.

Definition group_keys (df : frame) : list string :=
  fold_right insert_key [] (station_keys df).

(** The delay column of the rows of group [k], in input order. *)
Definition group_values (k : string) (df : frame) : list float64 :=
  flat_map (fun r => match fst r with
                     | Some k' => if String.eqb k' k then [snd r] else []
                     | None => []
                     end) df.

Definition dropna (vs : list float64) : list Q :=
  flat_map (fun v => match v with Finite q => [q] | NaN => [] end) vs.

Definition Qsum (xs : list Q) : Q := fold_right Qplus 0%Q xs.

(** [.mean()] of one group: NaN cells are skipped, and a group with no cell
    left has mean NaN. *)
Definition nanmean (vs : list float64) : float64 :=
  match dropna vs with
  | [] => NaN
  | xs => Finite (Qred (Qsum xs / inject_Z (Z.of_nat (List.length xs))))
  end.

(** [df.groupby('gare_depart')['retard_moyen_depart'].mean().reset_index()] *)
Definition groupby_mean (df : frame) : list avg_record :=
  map (fun k => mk_avg k (nanmean (group_values k df))) (group_keys df).

(** Rows taken at the positions of an indexer. *)
Definition take {A : Type} (d : A) (indexer : list nat) (l : list A) : list A :=
  map (fun i => nth i l d) indexer.

Definition non_nans (rows : list avg_record) : list (string * Q) :=
  flat_map (fun r => match avg_retard_moyen_depart r with
                     | Finite q => [(avg_gare_depart r, q)]
                     | NaN => []
                     end) rows.

Definition nans (rows : list avg_record) : list avg_record :=
  filter (fun r => isnan (avg_retard_moyen_depart r)) rows.

Definition argsort_rows (l : list (string * Q)) : list (string * Q) :=
  take ("", 0%Q) (argsort (map snd l)) l.

(** [.sort_values('retard_moyen_depart', ascending=ascending)], with the
    defaults [kind='quicksort'] and [na_position='last'].  pandas sorts the
    non-NaN rows with an ascending argsort; for a descending sort it
    reverses them before the argsort and reverses the result; the NaN rows
    are appended in their original order. *)
Definition sort_values (rows : list avg_record) (ascending : bool)
  : list avg_record :=
  let ordered :=
    if ascending then argsort_rows (non_nans rows)
    else rev (argsort_rows (rev (non_nans rows))) in
  map (fun kq => mk_avg (fst kq) (Finite (snd kq))) ordered ++ nans rows.

(** [.head(n)] is [iloc[:n]]: a negative [n] drops the last [-n] rows. *)
Definition head {A : Type} (n : Z) (l : list A) : list A :=
  if 0 <=? n then firstn (Z.to_nat n) l
  else firstn (List.length l - Z.to_nat (- n)) l.

(** Lines 95 to 108: from [result.data] to [result_data]. *)
Definition avg_delays (data : list db_row) (ascending : bool) (limit : Z)
  : list avg_record :=
  head limit (sort_values (groupby_mean (DataFrame data)) ascending).

End Pipeline.

(** ** Python values *)

(** [str.lower()], on the bytes of the string.  Only the ASCII range is
    folded; no character outside it lowers to one of [a], [s], [c], so the
    test [order.lower() == "asc"] is decided as Python decides it. *)
Definition lower_ascii (c : ascii) : ascii :=
  let n := N_of_ascii c in
  if ((65 <=? n) && (n <=? 90))%N then ascii_of_N (n + 32) else c.

Fixpoint lower (s : string) : string :=
  match s with
  | EmptyString => EmptyString
  | String c rest => String (lower_ascii c) (lower rest)
  end.

(** [str(n)] of an [int], as the f-strings use it. *)
Definition str_int (n : Z) : string := NilZero.string_of_int (Z.to_int n).

#[local] Set Warnings "-register-all".

(** The values the returned dictionaries hold. *)
Inductive pyvalue : Type :=
| PyStr (s : string)
| PyInt (n : Z)
| PyFloat (q : Q)
| PyRecords (l : list avg_record)
| PyDict (d : list (string * pyvalue)).

(** A dict literal, in insertion order. *)
Definition pydict : Type := list (string * pyvalue).

Fixpoint dict_get (key : string) (d : pydict) : option pyvalue :=
  match d with
  | [] => None
  | (k, v) :: rest => if String.eqb k key then Some v else dict_get key rest
  end.

(** ** The store and the effects of a call *)

(** [supabase.table(t).select(cols).eq(col, val)] *)
Record query : Type := mk_query {
  q_table : string;
  q_columns : string;
  q_eq : string * string
}.

(** What [.execute()] does: it raises, or returns an object with [data]. *)
Inductive response : Type :=
| Raises (e : string)
| Result (data : list db_row).

Definition Client : Type := query -> response.

(** The module global [supabase], and the queries sent to the store so far
    (oldest first).  Logger calls return nothing and are left out. *)
Record world : Type := mk_world {
  supabase : option Client;
  journal : list query
}.

(** A computation in a world: it returns or raises, and leaves a world. *)
Inductive outcome (A : Type) : Type :=
| Returned (a : A)
| Raised (e : string).

Arguments Returned {A} a.
Arguments Raised {A} e.

Definition Py (A : Type) : Type := world -> outcome A * world.

Definition ret {A : Type} (a : A) : Py A := fun w => (Returned a, w).

Definition bind {A B : Type} (m : Py A) (f : A -> Py B) : Py B :=
  fun w => match m w with
           | (Returned a, w') => f a w'
           | (Raised e, w') => (Raised e, w')
           end.

(** [try: body except Exception as e: handler(str(e))] *)
Definition try_except {A : Type} (body : Py A) (handler : string -> Py A)
  : Py A :=
  fun w => match body w with
           | (Returned a, w') => (Returned a, w')
           | (Raised e, w') => handler e w'
           end.

Definition execute (client : Client) (q : query) : Py (list db_row) :=
  fun w =>
    let w' := mk_world (supabase w) (journal w ++ [q]) in
    match client q with
    | Raises e => (Raised e, w')
    | Result data => (Returned data, w')
    end.

Notation "x <- m ;; k" := (bind m (fun x => k))
  (at level 61, m at next level, right associativity).

(** ** supabase_utils.get_avg_delay_by_station *)

(** Line 98: [ascending = order.lower() == "asc"] *)
Definition sort_ascending (order : string) : bool :=
  String.eqb (lower order) "asc".

Section Engine.

Context {P : PandasRuntime}.

Definition national_query (table_name : string) : query :=
  mk_query table_name "gare_depart, retard_moyen_depart, service"
           ("service", "National").

Definition get_avg_delay_by_station
  (table_name : string) (limit : Z) (order : string) : Py pydict :=
  fun w =>
  match supabase w with
  | None => ret [("error", PyStr "Supabase client not initialized")] w
  | Some client =>
      try_except
        (data <- execute client (national_query table_name) ;;
         match data with
         | [] => ret [("data", PyRecords []);
                      ("message", PyStr "No National service data found")]
         | _ :: _ =>
             let ascending := sort_ascending order in
             let result_data := avg_delays data ascending limit in
             let order_desc := if ascending then "lowest" else "highest" in
             ret [("data", PyRecords result_data);
                  ("count", PyInt (Z.of_nat (List.length result_data)));
                  ("table_name", PyStr table_name);
                  ("order", PyStr order);
                  ("service_filter", PyStr "National");
                  ("description",
                   PyStr ("Top " ++ str_int limit
                          ++ " National service stations with "
                          ++ order_desc ++ " average delays"))]
         end)
        (fun e => ret [("error", PyStr e)]) w
  end.

(** ** main.get_delays *)

(** A query parameter declared [int], after the framework's coercion. *)
Inductive int_param : Type :=
| IntAbsent
| IntMalformed
| IntValue (n : Z).

Record delays_request : Type := mk_request {
  table_name_param : option string;
  limit_param : int_param;
  order_param : option string
}.

(** [Query(default=10, ge=1, le=100)] *)
Definition validate_limit (p : int_param) : option Z :=
  match p with
  | IntAbsent => Some 10
  | IntMalformed => None
  | IntValue n => if (1 <=? n) && (n <=? 100) then Some n else None
  end.

(** [Literal["asc", "desc"] = Query(default="asc")] *)
Definition validate_order (p : option string) : option string :=
  match p with
  | None => Some "asc"
  | Some s => if String.eqb s "asc" || String.eqb s "desc" then Some s
              else None
  end.

Definition validate_table_name (p : option string) : string :=
  match p with
  | None => "tgv-data"
  | Some s => s
  end.

(** What becomes of a request to the route: the framework refuses it with
    status 422, or the function runs and returns [body].  Turning the
    returned dict into the JSON response is the framework's; it is modelled
    apart, by [respond]. *)
Inductive route_outcome : Type :=
| UnprocessableEntity
| Handled (body : pydict).

(** The route: the framework validates the parameters and answers 422
    without entering the function when one is refused.  [execution_time] is
    the rounded difference of the two clock readings. *)
Definition get_delays (req : delays_request) (execution_time : Q)
  : Py route_outcome :=
  match validate_limit (limit_param req), validate_order (order_param req) with
  | Some limit, Some order =>
      let table_name := validate_table_name (table_name_param req) in
      result <- get_avg_delay_by_station table_name limit order ;;
      let order_description :=
        if String.eqb order "asc" then "best (lowest delays)"
        else "worst (highest delays)" in
      ret (Handled
             [("method", PyStr "pandas");
              ("execution_time_ms", PyFloat execution_time);
              ("table_name", PyStr table_name);
              ("limit", PyInt limit);
              ("order", PyStr order);
              ("description",
               PyStr ("Top " ++ str_int limit ++ " " ++ order_description
                      ++ " stations"));
              ("result", PyDict result)])
  | _, _ => ret UnprocessableEntity
  end.

End Engine.

(** ** A runtime to run the model with

    Strings are read as plain decimal literals (a sign, digits, and a
    fraction after a point), and the argsort is a stable insertion sort, the
    one numpy's scalar quicksort falls back to on short arrays. *)

Definition digit_of (c : ascii) : option Z :=
  let n := N_of_ascii c in
  if ((48 <=? n) && (n <=? 57))%N then Some (Z.of_N (n - 48)) else None.

Fixpoint read_fraction (s : string) (num : Z) (den : positive) : option Q :=
  match s with
  | EmptyString => Some (Qred (num # den))
  | String c rest =>
      match digit_of c with
      | Some d => read_fraction rest (10 * num + d) (10 * den)
      | None => None
      end
  end.

Fixpoint read_digits (s : string) (num : Z) (seen : bool) : option Q :=
  match s with
  | EmptyString => if seen then Some (num # 1) else None
  | String c rest =>
      match digit_of c with
      | Some d => read_digits rest (10 * num + d) true
      | None => if Ascii.eqb c "." && seen then read_fraction rest num 1
                else None
      end
  end.

Definition decimal_text (s : string) : option Q :=
  match s with
  | String "-" rest => option_map Qopp (read_digits rest 0 false)
  | String "+" rest => read_digits rest 0 false
  | _ => read_digits s 0 false
  end.

Fixpoint insert_by_key (x : nat * Q) (l : list (nat * Q)) : list (nat * Q) :=
  match l with
  | [] => [x]
  | y :: rest =>
      if Qle_bool (snd x) (snd y) then x :: l else y :: insert_by_key x rest
  end.

Definition enumerate (l : list Q) : list (nat * Q) :=
  combine (seq 0 (List.length l)) l.

Definition insertion_argsort (l : list Q) : list nat :=
  map fst (fold_right insert_by_key [] (enumerate l)).

Definition key_le (x y : nat * Q) : Prop := (snd x <= snd y)%Q.

(** ** Notions of the specification *)

(** The order of the sorted table: numeric means in the requested direction,
    and the NaN means after them. *)
Definition numeric_then_nan (ascending : bool) (x y : float64) : Prop :=
  match x, y with
  | Finite a, Finite b => if ascending then (a <= b)%Q else (b <= a)%Q
  | _, NaN => True
  | NaN, Finite _ => False
  end.

(** The list under ["data"] of a returned payload. *)
Definition result_data (o : outcome pydict) : option (list avg_record) :=
  match o with
  | Returned d =>
      match dict_get "data" d with
      | Some (PyRecords l) => Some l
      | _ => None
      end
  | Raised _ => None
  end.

(** A world whose store answers every query with [data]. *)
Definition store (data : list db_row) : world :=
  mk_world (Some (fun _ => Result data)) [].

Definition national (k : string) (c : json_cell) : db_row :=
  mk_row (Some k) c (Some "National").

(** Record sets the claims are run on. *)
Definition only_unparseable : list db_row :=
  [national "A" (JString "x")].

Definition unparseable_and_numeric : list db_row :=
  [national "A" (JString "x"); national "B" (JNumber 5)].

Definition tied_b_first : list db_row :=
  [national "B" (JNumber 5); national "A" (JNumber 5)].

Definition tied_a_first : list db_row :=
  [national "A" (JNumber 5); national "B" (JNumber 5)].

Definition with_bad_record : list db_row :=
  [national "A" (JNumber 10); national "A" (JString "bad");
   national "A" (JNumber 20); national "B" (JNumber 5)].

Section Notions.

Context {P : PandasRuntime}.

(** The stations named by the records, in input order. *)
Definition stations (data : list db_row) : list string :=
  flat_map (fun r => match gare_depart r with Some k => [k] | None => [] end)
           data.

Definition distinct_stations (data : list db_row) : list string :=
  nodup string_dec (stations data).

(** Station [k] has a record whose delay is numeric. *)
Definition has_numeric_delay (k : string) (data : list db_row) : bool :=
  existsb (fun r => match gare_depart r with
                    | Some k' => String.eqb k' k
                                 && negb (isnan (to_numeric (retard_moyen_depart r)))
                    | None => false
                    end) data.

(** The valid groups of the specification: the stations with a mean. *)
Definition valid_stations (data : list db_row) : list string :=
  filter (fun k => has_numeric_delay k data) (distinct_stations data).

(** The numeric delays of the records of station [k]. *)
Definition parseable_values (k : string) (data : list db_row) : list Q :=
  flat_map (fun r => match gare_depart r, to_numeric (retard_moyen_depart r) with
                     | Some k', Finite q => if String.eqb k' k then [q] else []
                     | _, _ => []
                     end) data.

(** The position of the first record of station [k]. *)
Fixpoint first_seen (k : string) (data : list db_row) : nat :=
  match data with
  | [] => 0
  | r :: rest =>
      match gare_depart r with
      | Some k' => if String.eqb k' k then 0 else S (first_seen k rest)
      | None => S (first_seen k rest)
      end
  end.

Definition same_mean (x y : float64) : Prop :=
  match x, y with
  | Finite a, Finite b => (a == b)%Q
  | _, _ => False
  end.

(** Groups with equal means stand in the order of their first records. *)
Definition ties_in_first_seen_order (data : list db_row) (out : list avg_record)
  : Prop :=
  forall i j a b,
    (i < j)%nat -> nth_error out i = Some a -> nth_error out j = Some b ->
    same_mean (avg_retard_moyen_depart a) (avg_retard_moyen_depart b) ->
    (first_seen (avg_gare_depart a) data < first_seen (avg_gare_depart b) data)%nat.

(** The records of station [k], in input order. *)
Definition records_of (k : string) (data : list db_row) : list db_row :=
  filter (fun r => match gare_depart r with
                   | Some k' => String.eqb k' k
                   | None => false
                   end) data.

End Notions.

(** * The rest of the two modules

    [initialize_supabase], [check_table_exists], [get_table_info] and
    [get_unique_stations_count_from_db] of [supabase_utils.py], and the
    start-up hook and the routes of [main.py] that call them.  They share the
    module global [supabase] with the aggregation and send two more shapes of
    query, so the client is modelled here with all it answers. *)

(** A Python object, as these functions return it. *)
Inductive pyobject : Type :=
| ONone
| OBool (b : bool)
| OInt (n : Z)
| OStr (s : string)
| ODict (d : list (string * pyobject)).

Fixpoint object_get (key : string) (d : list (string * pyobject))
  : option pyobject :=
  match d with
  | [] => None
  | (k, v) :: rest => if String.eqb k key then Some v else object_get key rest
  end.

(** The queries the module sends. *)
Inductive request : Type :=
| SelectWhere (q : query)
  (** [.select(cols).eq(col, val).execute()] *)
| SelectColumn (table column : string)
  (** [.select(col).execute()] *)
| SelectCount (table : string).
  (** [.select("*", count="exact").limit(0).execute()] *)

(** The [count] of a response: the attribute may be missing, and it may hold
    [None]. *)
Inductive count_attr : Type :=
| NoCountAttr
| CountAttr (n : option Z).

Inductive count_reply : Type :=
| CountRaises (e : string)
| CountResult (c : count_attr).

(** The rows of a one-column select: the value under the column, per row. *)
Inductive column_reply : Type :=
| ColumnRaises (e : string)
| ColumnResult (data : list (option string)).

(** The client object: what the store answers to each shape of query. *)
Record Service : Type := mk_service {
  select_where : Client;
  select_column : string -> string -> column_reply;
  select_count : string -> count_reply
}.

(** The module global, and the requests sent so far (oldest first). *)
Record process : Type := mk_process {
  supabase_handle : option Service;
  sent : list request
}.

Definition App (A : Type) : Type := process -> outcome A * process.

Definition app_ret {A : Type} (a : A) : App A := fun p => (Returned a, p).

Definition app_bind {A B : Type} (m : App A) (f : A -> App B) : App B :=
  fun p => match m p with
           | (Returned a, p') => f a p'
           | (Raised e, p') => (Raised e, p')
           end.

Definition app_try {A : Type} (body : App A) (handler : string -> App A)
  : App A :=
  fun p => match body p with
           | (Returned a, p') => (Returned a, p')
           | (Raised e, p') => handler e p'
           end.

Definition record_request (r : request) (p : process) : process :=
  mk_process (supabase_handle p) (sent p ++ [r]).

Definition execute_count (s : Service) (table : string) : App count_attr :=
  fun p =>
    match select_count s table with
    | CountRaises e => (Raised e, record_request (SelectCount table) p)
    | CountResult c => (Returned c, record_request (SelectCount table) p)
    end.

Definition execute_column (s : Service) (table column : string)
  : App (list (option string)) :=
  fun p =>
    match select_column s table column with
    | ColumnRaises e => (Raised e, record_request (SelectColumn table column) p)
    | ColumnResult data =>
        (Returned data, record_request (SelectColumn table column) p)
    end.

(** The world the aggregation sees in a process, and a call of the
    aggregation or of its route made in the process. *)
Definition engine_view (p : process) : world :=
  mk_world (option_map select_where (supabase_handle p)) [].

Definition in_process {A : Type} (m : Py A) : App A :=
  fun p =>
    let (r, w) := m (engine_view p) in
    (r, mk_process (supabase_handle p)
                   (sent p ++ map SelectWhere (journal w))).

(** ** supabase_utils.initialize_supabase *)

Inductive creation : Type :=
| CreateRaises (e : string)
| Created (s : Service).

(** The two variables read at import, and the library's [create_client]. *)
Record environment : Type := mk_environment {
  SUPABASE_URL : option string;
  SUPABASE_KEY : option string;
  create_client : string -> string -> creation
}.

(** The truth value of [os.getenv(name)]: false for [None] and for [""]. *)
Definition truthy (v : option string) : bool :=
  match v with
  | None => false
  | Some s => negb (String.eqb s "")
  end.

Definition initialize_supabase (env : environment) : App unit :=
  fun p =>
    match SUPABASE_URL env, SUPABASE_KEY env with
    | Some url, Some key =>
        if truthy (Some url) && truthy (Some key) then
          match create_client env url key with
          | CreateRaises e => (Raised e, p)
          | Created s => (Returned tt, mk_process (Some s) (sent p))
          end
        else (Returned tt, p)
    | _, _ => (Returned tt, p)
    end.

(** ** supabase_utils.check_table_exists, get_table_info *)

Definition not_initialized : pyobject :=
  ODict [("exists", OBool false);
         ("error", OStr "Supabase client not initialized")].

(** [result.count if hasattr(result, 'count') else 0] *)
Definition row_count (c : count_attr) : pyobject :=
  match c with
  | NoCountAttr => OInt 0
  | CountAttr None => ONone
  | CountAttr (Some n) => OInt n
  end.

(** The function ends without a [return] on both branches of the [try]. *)
Definition check_table_exists (table_name : string) : App pyobject :=
  fun p =>
    match supabase_handle p with
    | None => app_ret not_initialized p
    | Some s =>
        app_try
          (app_bind (execute_count s table_name) (fun _ => app_ret ONone))
          (fun _ => app_ret ONone) p
    end.

Definition get_table_info (table_name : string) : App pyobject :=
  fun p =>
    match supabase_handle p with
    | None => app_ret not_initialized p
    | Some s =>
        app_bind (execute_count s table_name)
                 (fun c => app_ret (row_count c)) p
    end.

(** ** supabase_utils.get_unique_stations_count_from_db *)

(** The values of a column that are not null. *)
Definition named (column : list (option string)) : list string :=
  flat_map (fun v => match v with Some k => [k] | None => [] end) column.

(** [Series.nunique()]: the distinct values, nulls left out. *)
Definition nunique (column : list (option string)) : nat :=
  List.length (nodup string_dec (named column)).

Definition get_unique_stations_count_from_db (table_name : string)
  : App pydict :=
  fun p =>
    match supabase_handle p with
    | None => app_ret [("error", PyStr "Supabase client not initialized")] p
    | Some s =>
        app_try
          (app_bind (execute_column s table_name "gare_depart")
             (fun data =>
                match data with
                | [] =>
                    app_ret
                      [("unique_stations_count", PyInt 0);
                       ("message", PyStr "No National service data found");
                       ("service_filter", PyStr "National")]
                | _ :: _ =>
                    app_ret
                      [("unique_stations_count",
                        PyInt (Z.of_nat (nunique data)));
                       ("total_records", PyInt (Z.of_nat (List.length data)));
                       ("table_name", PyStr table_name);
                       ("service_filter", PyStr "National")]
                end))
          (fun e => app_ret [("error", PyStr e)]) p
    end.

(** ** main: the start-up hook and the routes *)

Definition startup_event (env : environment) : App unit :=
  app_bind (initialize_supabase env)
    (fun _ => app_bind (check_table_exists "tgv-data")
                (fun _ => app_ret tt)).

Definition get_count_rows : App pyobject :=
  app_bind (get_table_info "tgv-data")
    (fun table_info => app_ret (ODict [("row_count", table_info)])).

Section Served.

Context {P : PandasRuntime}.

(** [GET /api/delays], served by the process. *)
Definition api_delays (req : delays_request) (execution_time : Q)
  : App route_outcome :=
  in_process (get_delays req execution_time).

End Served.

(** ** The response to a request

    What the framework does with the outcome of a route.  The returned dict
    is encoded with [json.dumps(..., allow_nan=False)], which raises on a NaN:
    the request is then answered 500, as it is when the route raises. *)

Fixpoint json_encodable (v : pyvalue) : bool :=
  match v with
  | PyStr _ => true
  | PyInt _ => true
  | PyFloat _ => true
  | PyRecords l =>
      forallb (fun r => negb (isnan (avg_retard_moyen_depart r))) l
  | PyDict d =>
      (fix entries (d : list (string * pyvalue)) : bool :=
         match d with
         | [] => true
         | (_, v') :: rest => json_encodable v' && entries rest
         end) d
  end.

Inductive http_response : Type :=
| Response200 (body : pydict)
| Response422
| Response500.

Definition respond (o : outcome route_outcome) : http_response :=
  match o with
  | Returned UnprocessableEntity => Response422
  | Returned (Handled body) =>
      if json_encodable (PyDict body) then Response200 body else Response500
  | Raised _ => Response500
  end.

(** Services and environments the properties are run on. *)
Definition table_service (rows : list db_row) : Service :=
  mk_service (fun _ => Result rows)
             (fun _ _ => ColumnResult (map gare_depart rows))
             (fun _ => CountResult
                         (CountAttr (Some (Z.of_nat (List.length rows))))).

Definition failing_service (e : string) : Service :=
  mk_service (fun _ => Raises e) (fun _ _ => ColumnRaises e)
             (fun _ => CountRaises e).

Definition configured (s : Service) : environment :=
  mk_environment (Some "https://example.supabase.co") (Some "key")
                 (fun _ _ => Created s).

Definition unconfigured : environment :=
  mk_environment None (Some "key") (fun _ _ => CreateRaises "unreachable").

Definition fresh : process := mk_process None [].

Definition with_null_station : list db_row :=
  [national "A" (JNumber 10); mk_row None (JNumber 7) (Some "National");
   national "B" (JNumber 5)].

Definition without_null_station : list db_row :=
  [national "A" (JNumber 10); national "B" (JNumber 5)].

Definition default_request : delays_request := mk_request None IntAbsent None.

(** * Proofs *)

(** ** The insertion argsort is a sorting permutation *)

Lemma insert_by_key_perm (x : nat * Q) (l : list (nat * Q)) :
  Permutation (insert_by_key x l) (x :: l).
Proof.
  induction l as [|y rest IH]; simpl; [reflexivity|].
  destruct (Qle_bool (snd x) (snd y)); [reflexivity|].
  rewrite IH. apply perm_swap.
Qed.

Lemma insertion_perm (l : list (nat * Q)) :
  Permutation (fold_right insert_by_key [] l) l.
Proof.
  induction l as [|x rest IH]; simpl; [constructor|].
  rewrite insert_by_key_perm. now constructor.
Qed.

Lemma insert_by_key_sorted (x : nat * Q) (l : list (nat * Q)) :
  Sorted key_le l -> Sorted key_le (insert_by_key x l).
Proof.
  induction 1 as [|y rest Hs IH Hhd]; simpl.
  - repeat constructor.
  - destruct (Qle_bool (snd x) (snd y)) eqn:E.
    + apply Qle_bool_iff in E. repeat constructor; assumption.
    + assert (Hyx : key_le y x).
      { unfold key_le. apply Qlt_le_weak, Qnot_le_lt.
        intro H. apply Qle_bool_iff in H. congruence. }
      constructor; [exact IH|].
      destruct Hhd as [|z rest Hyz]; simpl.
      * constructor; exact Hyx.
      * destruct (Qle_bool (snd x) (snd z)); constructor; assumption.
Qed.

Lemma insertion_sorted (l : list (nat * Q)) :
  Sorted key_le (fold_right insert_by_key [] l).
Proof.
  induction l as [|x rest IH]; simpl; [constructor|].
  now apply insert_by_key_sorted.
Qed.

Lemma enumerate_from_nth (l : list Q) (s i : nat) (q : Q) :
  In (i, q) (combine (seq s (List.length l)) l) ->
  (s <= i)%nat /\ nth (i - s) l 0%Q = q.
Proof.
  revert s. induction l as [|x rest IH]; simpl; intros s H; [tauto|].
  destruct H as [H|H].
  - injection H as -> ->. rewrite Nat.sub_diag. split; [lia|reflexivity].
  - apply IH in H as [Hle Hn]. split; [lia|].
    replace (i - s)%nat with (S (i - S s)) by lia. exact Hn.
Qed.

Lemma enumerate_fst (l : list Q) :
  map fst (enumerate l) = seq 0 (List.length l).
Proof.
  unfold enumerate. generalize 0%nat.
  induction l as [|x rest IH]; simpl; intros s; [reflexivity|].
  now rewrite IH.
Qed.

Lemma insertion_argsort_perm (l : list Q) :
  Permutation (insertion_argsort l) (seq 0 (List.length l)).
Proof.
  unfold insertion_argsort. rewrite <- enumerate_fst.
  apply Permutation_map, insertion_perm.
Qed.

Lemma sorted_keys_map (l : list (nat * Q)) :
  Sorted key_le l -> Sorted Qle (map snd l).
Proof.
  induction 1 as [|y rest Hs IH Hhd]; simpl; constructor; [exact IH|].
  destruct Hhd; simpl; constructor; assumption.
Qed.

Lemma insertion_argsort_sorted (l : list Q) :
  Sorted Qle (map (fun i => nth i l 0%Q) (insertion_argsort l)).
Proof.
  unfold insertion_argsort. rewrite map_map.
  rewrite map_ext_in with (g := snd).
  - apply sorted_keys_map, insertion_sorted.
  - intros [i q] Hin. simpl.
    apply (Permutation_in _ (insertion_perm (enumerate l))) in Hin.
    apply enumerate_from_nth in Hin as [_ Hn].
    now rewrite Nat.sub_0_r in Hn.
Qed.

#[export] Instance reference_runtime : PandasRuntime := {|
  str_to_float := decimal_text;
  argsort := insertion_argsort;
  argsort_perm := insertion_argsort_perm;
  argsort_sorted := insertion_argsort_sorted
|}.

(** ** Lists: orderings, permutations, prefixes *)

Section ListFacts.

Context {A : Type}.

Lemma StronglySorted_app (R : A -> A -> Prop) (l1 l2 : list A) :
  StronglySorted R l1 -> StronglySorted R l2 ->
  (forall x y, In x l1 -> In y l2 -> R x y) ->
  StronglySorted R (l1 ++ l2).
Proof.
  induction 1 as [|x l1 Hs IH Hall]; simpl; intros H2 Hx; [exact H2|].
  constructor.
  - apply IH; [exact H2|]. intros a b Ha Hb. apply Hx; [now right|exact Hb].
  - apply Forall_app. split; [exact Hall|].
    apply Forall_forall. intros b Hb. apply Hx; [now left|exact Hb].
Qed.

Lemma StronglySorted_rev (R : A -> A -> Prop) (l : list A) :
  StronglySorted R l -> StronglySorted (fun x y => R y x) (rev l).
Proof.
  induction 1 as [|x l Hs IH Hall]; simpl; [constructor|].
  apply StronglySorted_app; [exact IH|repeat constructor|].
  intros a b Ha [<-|[]]. apply in_rev in Ha.
  rewrite Forall_forall in Hall. now apply Hall.
Qed.

Lemma StronglySorted_firstn (R : A -> A -> Prop) (n : nat) (l : list A) :
  StronglySorted R l -> StronglySorted R (firstn n l).
Proof.
  intros H. revert n.
  induction H as [|x l Hs IH Hall]; intros [|n]; simpl; try constructor.
  - apply IH.
  - apply Forall_forall. intros y Hy.
    rewrite Forall_forall in Hall. apply Hall.
    rewrite <- (firstn_skipn n l). apply in_or_app. now left.
Qed.

Lemma StronglySorted_map_in {B : Type} (R : A -> A -> Prop)
  (R' : B -> B -> Prop) (f : A -> B) (l : list A) :
  StronglySorted R l ->
  (forall x y, In x l -> In y l -> R x y -> R' (f x) (f y)) ->
  StronglySorted R' (map f l).
Proof.
  induction 1 as [|x l Hs IH Hall]; simpl; intros Hf; constructor.
  - apply IH. intros a b Ha Hb. apply Hf; now right.
  - rewrite Forall_map. rewrite Forall_forall in *. intros y Hy.
    apply Hf; [now left|now right|now apply Hall].
Qed.

Lemma StronglySorted_nth_error (R : A -> A -> Prop) (l : list A) :
  StronglySorted R l ->
  forall i j a b,
    (i < j)%nat -> nth_error l i = Some a -> nth_error l j = Some b -> R a b.
Proof.
  induction 1 as [|x l Hs IH Hall]; intros i j a b Hij Ha Hb.
  - destruct i; discriminate.
  - destruct j as [|j]; [lia|]. simpl in Hb. destruct i as [|i]; simpl in Ha.
    + injection Ha as <-. rewrite Forall_forall in Hall.
      apply Hall. now apply nth_error_In with j.
    + apply (IH i j); [lia|assumption|assumption].
Qed.

Lemma StronglySorted_nth (R : A -> A -> Prop) (d : A) (l : list A) :
  StronglySorted R l ->
  forall i j, (i < j)%nat -> (j < List.length l)%nat ->
              R (nth i l d) (nth j l d).
Proof.
  intros Hs i j Hij Hj.
  apply (StronglySorted_nth_error R l Hs i j); [exact Hij| |];
    apply nth_error_nth'; lia.
Qed.

Lemma StronglySorted_impl (R R' : A -> A -> Prop) (l : list A) :
  (forall x y, R x y -> R' x y) ->
  StronglySorted R l -> StronglySorted R' l.
Proof.
  intros HR. induction 1 as [|x l Hs IH Hall]; constructor; [exact IH|].
  eapply Forall_impl; [|exact Hall]. intros y. apply HR.
Qed.

Lemma Permutation_flat_map_compat {B : Type} (f : A -> list B) (l l' : list A) :
  Permutation l l' -> Permutation (flat_map f l) (flat_map f l').
Proof.
  induction 1 as [|x l l' Hp IH|x y l|l l' l'' H1 IH1 H2 IH2]; simpl.
  - constructor.
  - now apply Permutation_app_head.
  - rewrite !app_assoc. apply Permutation_app_tail, Permutation_app_comm.
  - now transitivity (flat_map f l').
Qed.

Lemma map_nth_seq (d : A) (l : list A) :
  map (fun i => nth i l d) (seq 0 (List.length l)) = l.
Proof.
  induction l as [|x rest IH]; simpl; [reflexivity|].
  f_equal. rewrite <- seq_shift, map_map. exact IH.
Qed.

Lemma take_perm (d : A) (indexer : list nat) (l : list A) :
  Permutation indexer (seq 0 (List.length l)) ->
  Permutation (take d indexer l) l.
Proof.
  intros H. unfold take.
  transitivity (map (fun i => nth i l d) (seq 0 (List.length l))).
  - now apply Permutation_map.
  - now rewrite map_nth_seq.
Qed.

Lemma head_prefix (n : Z) (l : list A) :
  exists m, head n l = firstn m l.
Proof.
  unfold head. destruct (0 <=? n); eexists; reflexivity.
Qed.

Lemma head_length (n : Z) (l : list A) :
  0 <= n -> List.length (head n l) = Nat.min (Z.to_nat n) (List.length l).
Proof.
  intros H. unfold head.
  destruct (Z.leb_spec 0 n); [apply length_firstn|lia].
Qed.

Lemma head_all (n : Z) (l : list A) :
  Z.of_nat (List.length l) <= n -> head n l = l.
Proof.
  intros H. unfold head.
  destruct (Z.leb_spec 0 n); [|lia].
  apply firstn_all2. lia.
Qed.

End ListFacts.

(** ** The group keys *)

Lemma compare_cases (a b : string) :
  (String_as_OT.compare a b = Eq /\ a = b)
  \/ (String_as_OT.compare a b = Lt /\ String_as_OT.lt a b)
  \/ (String_as_OT.compare a b = Gt /\ String_as_OT.lt b a).
Proof.
  destruct (String_as_OT.compare_spec a b); auto.
Qed.

Lemma lt_irrefl (a : string) : ~ String_as_OT.lt a a.
Proof. apply (StrictOrder_Irreflexive (R := String_as_OT.lt)). Qed.

Lemma lt_trans (a b c : string) :
  String_as_OT.lt a b -> String_as_OT.lt b c -> String_as_OT.lt a c.
Proof. apply (StrictOrder_Transitive (R := String_as_OT.lt)). Qed.

Lemma insert_key_In (k x : string) (ks : list string) :
  In x (insert_key k ks) <-> x = k \/ In x ks.
Proof.
  induction ks as [|k' rest IH]; simpl; [intuition|].
  destruct (compare_cases k k') as [[-> E]|[[-> E]|[-> E]]]; simpl.
  - subst. intuition.
  - intuition.
  - rewrite IH. intuition.
Qed.

Lemma insert_key_sorted (k : string) (ks : list string) :
  StronglySorted String_as_OT.lt ks ->
  StronglySorted String_as_OT.lt (insert_key k ks).
Proof.
  induction 1 as [|k' rest Hs IH Hall]; simpl; [repeat constructor|].
  destruct (compare_cases k k') as [[-> E]|[[-> E]|[-> E]]].
  - now constructor.
  - constructor; [now constructor|].
    constructor; [exact E|].
    eapply Forall_impl; [|exact Hall]. intros a Ha. now apply lt_trans with k'.
  - constructor; [exact IH|].
    apply Forall_forall. intros a Ha. apply insert_key_In in Ha as [->|Ha].
    + exact E.
    + rewrite Forall_forall in Hall. now apply Hall.
Qed.

Lemma sorted_keys_NoDup (ks : list string) :
  StronglySorted String_as_OT.lt ks -> NoDup ks.
Proof.
  induction 1 as [|k rest Hs IH Hall]; constructor; [|exact IH].
  intros Hin. rewrite Forall_forall in Hall.
  exact (lt_irrefl k (Hall k Hin)).
Qed.

Lemma sorted_keys_unique (l1 l2 : list string) :
  StronglySorted String_as_OT.lt l1 -> StronglySorted String_as_OT.lt l2 ->
  (forall x, In x l1 <-> In x l2) -> l1 = l2.
Proof.
  intros H1. revert l2.
  induction H1 as [|a l1 Hs1 IH Hall1]; intros l2 H2 Heq.
  - destruct l2 as [|b l2]; [reflexivity|].
    exfalso. apply (Heq b). now left.
  - destruct H2 as [|b l2 Hs2 Hall2].
    + exfalso. apply (Heq a). now left.
    + rewrite Forall_forall in Hall1, Hall2.
      assert (a = b) as ->.
      { destruct (proj1 (Heq a) (or_introl eq_refl)) as [E|Ha]; [now symmetry|].
        destruct (proj2 (Heq b) (or_introl eq_refl)) as [E|Hb]; [exact E|].
        exfalso. apply (lt_irrefl a).
        apply lt_trans with b; [now apply Hall1|now apply Hall2]. }
      f_equal. apply IH; [exact Hs2|].
      intros x. split; intros Hx.
      * destruct (proj1 (Heq x) (or_intror Hx)) as [E|Hx']; [|exact Hx'].
        subst x. exfalso. exact (lt_irrefl b (Hall1 b Hx)).
      * destruct (proj2 (Heq x) (or_intror Hx)) as [E|Hx']; [|exact Hx'].
        subst x. exfalso. exact (lt_irrefl b (Hall2 b Hx)).
Qed.

Lemma fold_insert_key_In (x : string) (ks : list string) :
  In x (fold_right insert_key [] ks) <-> In x ks.
Proof.
  induction ks as [|k rest IH]; simpl; [tauto|].
  rewrite insert_key_In, IH. intuition.
Qed.

Lemma fold_insert_key_sorted (ks : list string) :
  StronglySorted String_as_OT.lt (fold_right insert_key [] ks).
Proof.
  induction ks as [|k rest IH]; simpl; [constructor|].
  now apply insert_key_sorted.
Qed.

Lemma group_keys_In (k : string) (df : frame) :
  In k (group_keys df) <-> In (Some k) (map fst df).
Proof.
  unfold group_keys. rewrite fold_insert_key_In. unfold station_keys.
  rewrite in_flat_map, in_map_iff. split.
  - intros [[k' v] [Hin Hk]]. simpl in Hk. destruct k' as [k'|]; [|easy].
    destruct Hk as [->|[]]. now exists (Some k, v).
  - intros [[k' v] [Hk Hin]]. simpl in Hk. subst k'.
    exists (Some k, v). split; [exact Hin|now left].
Qed.

Lemma group_keys_NoDup (df : frame) : NoDup (group_keys df).
Proof. apply sorted_keys_NoDup, fold_insert_key_sorted. Qed.

Lemma group_keys_perm (df df' : frame) :
  Permutation df df' -> group_keys df = group_keys df'.
Proof.
  intros Hp. apply sorted_keys_unique; try apply fold_insert_key_sorted.
  intros x. unfold group_keys. rewrite !fold_insert_key_In.
  assert (Hk : Permutation (station_keys df) (station_keys df'))
    by now apply Permutation_flat_map_compat.
  split; apply Permutation_in; [exact Hk|now symmetry].
Qed.

(** The groups are counted by the distinct non-null stations. *)
Lemma group_keys_length (df : frame) :
  List.length (group_keys df)
  = List.length (nodup string_dec (station_keys df)).
Proof.
  apply Permutation_length, NoDup_Permutation.
  - apply group_keys_NoDup.
  - apply NoDup_nodup.
  - intros x. unfold group_keys. now rewrite fold_insert_key_In, nodup_In.
Qed.

(** ** Means *)

Lemma nanmean_nan (vs : list float64) :
  nanmean vs = NaN <-> dropna vs = [].
Proof.
  unfold nanmean. destruct (dropna vs); split; intros H; try reflexivity;
    discriminate.
Qed.

(** A NaN cell among the values of a group changes nothing. *)
Lemma dropna_app (l1 l2 : list float64) :
  dropna (l1 ++ l2) = (dropna l1 ++ dropna l2)%list.
Proof. unfold dropna. apply flat_map_app. Qed.

Lemma nanmean_skips_nan (l1 l2 : list float64) :
  nanmean (l1 ++ NaN :: l2) = nanmean (l1 ++ l2).
Proof.
  unfold nanmean. rewrite !dropna_app. reflexivity.
Qed.

(** ** Sorting the group table *)

Section Sorting.

Context {P : PandasRuntime}.

Lemma argsort_rows_perm (l : list (string * Q)) :
  Permutation (argsort_rows l) l.
Proof.
  unfold argsort_rows. apply take_perm.
  rewrite <- (length_map snd l). apply argsort_perm.
Qed.

Lemma argsort_rows_keys (l : list (string * Q)) :
  map snd (argsort_rows l)
  = map (fun i => nth i (map snd l) 0%Q) (argsort (map snd l)).
Proof.
  unfold argsort_rows, take. rewrite map_map. apply map_ext.
  intros i. symmetry. apply (map_nth snd l ("", 0%Q) i).
Qed.

Lemma Qle_sorted_strong (l : list Q) : Sorted Qle l -> StronglySorted Qle l.
Proof.
  apply Sorted_StronglySorted. intros x y z. apply Qle_trans.
Qed.

Lemma argsort_rows_sorted (l : list (string * Q)) :
  StronglySorted Qle (map snd (argsort_rows l)).
Proof.
  rewrite argsort_rows_keys. apply Qle_sorted_strong, argsort_sorted.
Qed.

Lemma nans_all_nan (rows : list avg_record) (r : avg_record) :
  In r (nans rows) -> avg_retard_moyen_depart r = NaN.
Proof.
  unfold nans. rewrite filter_In. intros [_ H].
  destruct (avg_retard_moyen_depart r); [discriminate|reflexivity].
Qed.

Lemma all_nan_sorted (ascending : bool) (l : list float64) :
  (forall x, In x l -> x = NaN) ->
  StronglySorted (numeric_then_nan ascending) l.
Proof.
  induction l as [|x rest IH]; intros H; constructor.
  - apply IH. intros y Hy. apply H. now right.
  - apply Forall_forall. intros y Hy.
    rewrite (H y (or_intror Hy)). destruct x; exact I.
Qed.

Lemma split_nan_perm (rows : list avg_record) :
  Permutation
    (map (fun kq => mk_avg (fst kq) (Finite (snd kq))) (non_nans rows)
     ++ nans rows)%list rows.
Proof.
  induction rows as [|[k [q|]] rest IH]; simpl.
  - constructor.
  - now constructor.
  - rewrite <- Permutation_middle. now constructor.
Qed.

Lemma sort_values_perm (rows : list avg_record) (ascending : bool) :
  Permutation (sort_values rows ascending) rows.
Proof.
  unfold sort_values.
  eapply Permutation_trans; [|apply split_nan_perm].
  apply Permutation_app_tail, Permutation_map.
  destruct ascending.
  - apply argsort_rows_perm.
  - rewrite <- Permutation_rev, argsort_rows_perm. symmetry.
    apply Permutation_rev.
Qed.

Lemma sort_values_length (rows : list avg_record) (ascending : bool) :
  List.length (sort_values rows ascending) = List.length rows.
Proof. apply Permutation_length, sort_values_perm. Qed.

Lemma sort_values_sorted (rows : list avg_record) (ascending : bool) :
  StronglySorted (numeric_then_nan ascending)
    (map avg_retard_moyen_depart (sort_values rows ascending)).
Proof.
  unfold sort_values. rewrite map_app, map_map. simpl.
  apply StronglySorted_app.
  - rewrite <- map_map with (f := snd) (g := Finite).
    destruct ascending.
    + generalize (argsort_rows_sorted (non_nans rows)).
      induction 1 as [|q l Hs IH Hall]; simpl; constructor; [exact IH|].
      rewrite Forall_map. exact Hall.
    + rewrite map_rev.
      generalize (StronglySorted_rev _ _
                    (argsort_rows_sorted (rev (non_nans rows)))).
      induction 1 as [|q l Hs IH Hall]; simpl; constructor; [exact IH|].
      rewrite Forall_map. exact Hall.
  - apply all_nan_sorted. intros x Hx.
    apply in_map_iff in Hx as [r [<- Hr]]. now apply nans_all_nan with rows.
  - intros x y Hx Hy.
    apply in_map_iff in Hy as [r [<- Hr]]. rewrite (nans_all_nan _ _ Hr).
    destruct x; exact I.
Qed.

End Sorting.

(** ** Running the function *)

Section Running.

Context {P : PandasRuntime}.

Lemma run_not_initialized (w : world) (table_name order : string) (limit : Z) :
  supabase w = None ->
  get_avg_delay_by_station table_name limit order w
  = (Returned [("error", PyStr "Supabase client not initialized")], w).
Proof.
  intros H. unfold get_avg_delay_by_station. now rewrite H.
Qed.

Lemma run_raises (w : world) (client : Client) (table_name order e : string)
  (limit : Z) :
  supabase w = Some client ->
  client (national_query table_name) = Raises e ->
  get_avg_delay_by_station table_name limit order w
  = (Returned [("error", PyStr e)],
     mk_world (supabase w) (journal w ++ [national_query table_name])).
Proof.
  intros Hc Hr. unfold get_avg_delay_by_station, try_except, bind, execute.
  now rewrite Hc, Hr.
Qed.

Lemma run_empty (w : world) (client : Client) (table_name order : string)
  (limit : Z) :
  supabase w = Some client ->
  client (national_query table_name) = Result [] ->
  get_avg_delay_by_station table_name limit order w
  = (Returned [("data", PyRecords []);
               ("message", PyStr "No National service data found")],
     mk_world (supabase w) (journal w ++ [national_query table_name])).
Proof.
  intros Hc Hr. unfold get_avg_delay_by_station, try_except, bind, execute.
  now rewrite Hc, Hr.
Qed.

Lemma run_data (w : world) (client : Client) (table_name order : string)
  (limit : Z) (data : list db_row) :
  supabase w = Some client ->
  client (national_query table_name) = Result data ->
  data <> [] ->
  get_avg_delay_by_station table_name limit order w
  = (Returned
       [("data", PyRecords (avg_delays data (sort_ascending order) limit));
        ("count",
         PyInt (Z.of_nat
                  (List.length (avg_delays data (sort_ascending order) limit))));
        ("table_name", PyStr table_name);
        ("order", PyStr order);
        ("service_filter", PyStr "National");
        ("description",
         PyStr ("Top " ++ str_int limit ++ " National service stations with "
                ++ (if sort_ascending order then "lowest" else "highest")
                ++ " average delays"))],
     mk_world (supabase w) (journal w ++ [national_query table_name])).
Proof.
  intros Hc Hr Hd. unfold get_avg_delay_by_station, try_except, bind, execute.
  rewrite Hc, Hr. destruct data as [|r rest]; [congruence|reflexivity].
Qed.

(** Whatever the store answers, a payload is returned, and its rows are the
    pipeline's. *)
Lemma run_result_data (w : world) (client : Client) (table_name order : string)
  (limit : Z) (data : list db_row) :
  supabase w = Some client ->
  client (national_query table_name) = Result data ->
  result_data (fst (get_avg_delay_by_station table_name limit order w))
  = Some (avg_delays data (sort_ascending order) limit).
Proof.
  intros Hc Hr. destruct data as [|r rest].
  - rewrite (run_empty w client); auto.
    unfold avg_delays.
    assert (E : sort_values (groupby_mean (DataFrame [])) (sort_ascending order)
                = [])
      by (apply length_zero_iff_nil; now rewrite sort_values_length).
    rewrite E. unfold head.
    destruct (0 <=? limit); simpl; rewrite ?firstn_nil; reflexivity.
  - rewrite (run_data w client _ _ _ (r :: rest)); auto. discriminate.
Qed.

End Running.

(** ** The rows of the result *)

Section Rows.

Context {P : PandasRuntime}.

Lemma station_keys_DataFrame (data : list db_row) :
  station_keys (DataFrame data) = stations data.
Proof.
  unfold station_keys, stations, DataFrame.
  induction data as [|r rest IH]; simpl; [reflexivity|]. now rewrite IH.
Qed.

Lemma groupby_mean_length (data : list db_row) :
  List.length (groupby_mean (DataFrame data))
  = List.length (distinct_stations data).
Proof.
  unfold groupby_mean. rewrite length_map, group_keys_length.
  now rewrite station_keys_DataFrame.
Qed.

Lemma avg_delays_length (data : list db_row) (ascending : bool) (limit : Z) :
  0 <= limit ->
  List.length (avg_delays data ascending limit)
  = Nat.min (List.length (distinct_stations data)) (Z.to_nat limit).
Proof.
  intros H. unfold avg_delays.
  rewrite head_length, sort_values_length, groupby_mean_length by exact H.
  apply Nat.min_comm.
Qed.

Lemma avg_delays_strongly_sorted (data : list db_row) (ascending : bool)
  (limit : Z) :
  StronglySorted (numeric_then_nan ascending)
    (map avg_retard_moyen_depart (avg_delays data ascending limit)).
Proof.
  unfold avg_delays.
  destruct (head_prefix limit
              (sort_values (groupby_mean (DataFrame data)) ascending))
    as [m ->].
  rewrite <- firstn_map.
  apply StronglySorted_firstn, sort_values_sorted.
Qed.

Lemma avg_delays_sorted (data : list db_row) (ascending : bool) (limit : Z) :
  Sorted (numeric_then_nan ascending)
    (map avg_retard_moyen_depart (avg_delays data ascending limit)).
Proof. apply StronglySorted_Sorted, avg_delays_strongly_sorted. Qed.

(** Nothing but NaN means follows a NaN mean. *)
Lemma avg_delays_nan_last (data : list db_row) (ascending : bool) (limit : Z)
  (i j : nat) (a b : avg_record) :
  (i < j)%nat ->
  nth_error (avg_delays data ascending limit) i = Some a ->
  nth_error (avg_delays data ascending limit) j = Some b ->
  avg_retard_moyen_depart a = NaN ->
  avg_retard_moyen_depart b = NaN.
Proof.
  intros Hij Ha Hb Hnan.
  pose proof (StronglySorted_nth_error _ _
                (avg_delays_strongly_sorted data ascending limit) i j
                _ _ Hij
                (map_nth_error avg_retard_moyen_depart _ _ Ha)
                (map_nth_error avg_retard_moyen_depart _ _ Hb)) as H.
  rewrite Hnan in H. destruct (avg_retard_moyen_depart b); [destruct H|].
  reflexivity.
Qed.

Lemma avg_delays_incl (data : list db_row) (ascending : bool) (limit : Z)
  (r : avg_record) :
  In r (avg_delays data ascending limit) ->
  In r (groupby_mean (DataFrame data)).
Proof.
  unfold avg_delays.
  destruct (head_prefix limit
              (sort_values (groupby_mean (DataFrame data)) ascending))
    as [m ->].
  intros H. apply (Permutation_in _ (sort_values_perm _ ascending)).
  rewrite <- (firstn_skipn m). apply in_or_app. now left.
Qed.

Lemma avg_delays_all (data : list db_row) (ascending : bool) (limit : Z)
  (r : avg_record) :
  Z.of_nat (List.length (distinct_stations data)) <= limit ->
  In r (groupby_mean (DataFrame data)) ->
  In r (avg_delays data ascending limit).
Proof.
  intros Hl Hr. unfold avg_delays. rewrite head_all.
  - apply (Permutation_in _ (Permutation_sym (sort_values_perm _ ascending))).
    exact Hr.
  - now rewrite sort_values_length, groupby_mean_length.
Qed.

Lemma groupby_mean_In (data : list db_row) (r : avg_record) :
  In r (groupby_mean (DataFrame data)) <->
  In (Some (avg_gare_depart r)) (map gare_depart data)
  /\ avg_retard_moyen_depart r
     = nanmean (group_values (avg_gare_depart r) (DataFrame data)).
Proof.
  unfold groupby_mean. rewrite in_map_iff. split.
  - intros [k [<- Hk]]. simpl. split; [|reflexivity].
    apply group_keys_In in Hk. unfold DataFrame in Hk.
    now rewrite map_map in Hk.
  - intros [Hk Hm]. exists (avg_gare_depart r). split.
    + destruct r as [k m]. simpl in *. now rewrite Hm.
    + apply group_keys_In. unfold DataFrame. now rewrite map_map.
Qed.

Lemma dropna_group_values (k : string) (data : list db_row) :
  dropna (group_values k (DataFrame data)) = parseable_values k data.
Proof.
  unfold dropna, group_values, parseable_values, DataFrame.
  induction data as [|r rest IH]; simpl; [reflexivity|].
  rewrite flat_map_app, IH. f_equal.
  destruct (gare_depart r) as [k'|]; simpl; [|reflexivity].
  destruct (to_numeric (retard_moyen_depart r)), (String.eqb k' k);
    reflexivity.
Qed.

Lemma parseable_values_nil (k : string) (data : list db_row) :
  (forall r, In r data -> gare_depart r = Some k ->
             to_numeric (retard_moyen_depart r) = NaN) ->
  parseable_values k data = [].
Proof.
  unfold parseable_values. induction data as [|r rest IH]; intros H; simpl;
    [reflexivity|].
  rewrite IH by (intros r' Hr'; apply H; now right).
  destruct (gare_depart r) as [k'|] eqn:Ek; [|reflexivity].
  destruct (String.eqb_spec k' k) as [->|Hne].
  - rewrite (H r (or_introl eq_refl) Ek). reflexivity.
  - destruct (to_numeric (retard_moyen_depart r)); reflexivity.
Qed.



Lemma records_of_In (k : string) (data : list db_row) :
  In (Some k) (map gare_depart data) <-> records_of k data <> [].
Proof.
  unfold records_of. split.
  - intros H. apply in_map_iff in H as [r [Hk Hr]].
    assert (Hin : In r (filter (fun r => match gare_depart r with
                                          | Some k' => String.eqb k' k
                                          | None => false
                                          end) data)).
    { apply filter_In. split; [exact Hr|]. rewrite Hk. apply String.eqb_refl. }
    intros E. now rewrite E in Hin.
  - intros H.
    destruct (filter _ data) as [|r rest] eqn:E; [congruence|].
    assert (Hin : In r (filter (fun r => match gare_depart r with
                                          | Some k' => String.eqb k' k
                                          | None => false
                                          end) data))
      by (rewrite E; now left).
    apply filter_In in Hin as [Hr Hk]. apply in_map_iff. exists r.
    split; [|exact Hr].
    destruct (gare_depart r) as [k'|]; [|discriminate].
    apply String.eqb_eq in Hk. now subst.
Qed.

Lemma group_values_records (k : string) (data : list db_row) :
  group_values k (DataFrame data)
  = map (fun r => to_numeric (retard_moyen_depart r)) (records_of k data).
Proof.
  unfold group_values, DataFrame, records_of.
  induction data as [|r rest IH]; simpl; [reflexivity|].
  rewrite IH. destruct (gare_depart r) as [k'|]; [|reflexivity].
  destruct (String.eqb k' k); reflexivity.
Qed.

(** The group table is made from the records of each station, taken in
    their order: how the stations are interleaved does not matter. *)
Lemma groupby_mean_same_groups (data data' : list db_row) :
  (forall k, records_of k data = records_of k data') ->
  groupby_mean (DataFrame data) = groupby_mean (DataFrame data').
Proof.
  intros H. unfold groupby_mean.
  assert (Hkeys : group_keys (DataFrame data) = group_keys (DataFrame data')).
  { apply sorted_keys_unique; try apply fold_insert_key_sorted.
    intros k. rewrite !group_keys_In. unfold DataFrame.
    rewrite !map_map. simpl.
    change (In (Some k) (map gare_depart data)
            <-> In (Some k) (map gare_depart data')).
    now rewrite !records_of_In, H. }
  rewrite Hkeys. apply map_ext. intros k.
  now rewrite !group_values_records, H.
Qed.



Lemma avg_delays_nil (ascending : bool) (limit : Z) :
  avg_delays [] ascending limit = [].
Proof.
  destruct (avg_delays [] ascending limit) as [|r rest] eqn:E; [reflexivity|].
  assert (Hin : In r (avg_delays [] ascending limit)) by (rewrite E; now left).
  apply avg_delays_incl in Hin. destruct Hin.
Qed.

(** With a client that answers, the function returns a payload without an
    error that holds the rows of the pipeline. *)
Lemma run_payload (w : world) (client : Client) (table_name order : string)
  (limit : Z) (data : list db_row) :
  supabase w = Some client ->
  client (national_query table_name) = Result data ->
  exists d,
    fst (get_avg_delay_by_station table_name limit order w) = Returned d
    /\ dict_get "error" d = None
    /\ dict_get "data" d
       = Some (PyRecords (avg_delays data (sort_ascending order) limit)).
Proof.
  intros Hc Hr. destruct data as [|r rest].
  - rewrite (run_empty w client) by assumption. rewrite avg_delays_nil.
    eexists. repeat split; reflexivity.
  - rewrite (run_data w client _ _ _ (r :: rest)) by (auto; discriminate).
    eexists. repeat split; reflexivity.
Qed.

End Rows.

(** ** The order argument *)

Lemma lower_ascii_inv (c : ascii) :
  (lower_ascii c = "a"%char -> c = "a"%char \/ c = "A"%char)
  /\ (lower_ascii c = "s"%char -> c = "s"%char \/ c = "S"%char)
  /\ (lower_ascii c = "c"%char -> c = "c"%char \/ c = "C"%char).
Proof.
  destruct c as [[] [] [] [] [] [] [] []]; vm_compute;
    repeat split; intros H; try discriminate H; auto.
Qed.

Lemma lower_asc_iff (order : string) :
  lower order = "asc" <->
  In order ["asc"; "asC"; "aSc"; "aSC"; "Asc"; "AsC"; "ASc"; "ASC"].
Proof.
  split.
  - destruct order as [|c1 [|c2 [|c3 [|c4 rest]]]]; simpl; intros H;
      try discriminate H.
    injection H as H1 H2 H3.
    apply (proj1 (lower_ascii_inv c1)) in H1.
    apply (proj1 (proj2 (lower_ascii_inv c2))) in H2.
    apply (proj2 (proj2 (lower_ascii_inv c3))) in H3.
    destruct H1, H2, H3; subst; tauto.
  - simpl. intros H.
    repeat (destruct H as [<-|H]; [reflexivity|]). destruct H.
Qed.

(** * The claims *)

Section Claims.

Context {P : PandasRuntime}.

(** C1, as the code has it: a station with a name, all of whose records have
    a delay that is not numeric, is not dropped.  It is a group of the result
    with mean NaN; it is returned whenever [limit] is at least the number of
    groups; and in the returned sequence only NaN means follow a NaN mean,
    so that such groups stand after every group with a numeric mean. *)
Theorem unparseable_station_kept_with_nan
  (w : world) (client : Client) (table_name order : string) (limit : Z)
  (data : list db_row) (k : string) :
  supabase w = Some client ->
  client (national_query table_name) = Result data ->
  In (Some k) (map gare_depart data) ->
  (forall r, In r data -> gare_depart r = Some k ->
             to_numeric (retard_moyen_depart r) = NaN) ->
  Z.of_nat (List.length (distinct_stations data)) <= limit ->
  exists l,
    result_data (fst (get_avg_delay_by_station table_name limit order w))
    = Some l
    /\ In (mk_avg k NaN) l
    /\ (forall i j a b,
          (i < j)%nat -> nth_error l i = Some a -> nth_error l j = Some b ->
          avg_retard_moyen_depart a = NaN -> avg_retard_moyen_depart b = NaN).
Proof.
  intros Hc Hr Hk Hnan Hl.
  exists (avg_delays data (sort_ascending order) limit). split; [|split].
  - now apply run_result_data with client.
  - apply avg_delays_all; [exact Hl|].
    apply groupby_mean_In. simpl. split; [exact Hk|].
    symmetry. apply nanmean_nan.
    rewrite dropna_group_values. now apply parseable_values_nil.
  - intros i j a b. apply avg_delays_nan_last.
Qed.

(** C3, as the code has it: the numeric means of the returned sequence are in
    the requested direction, and the entries whose mean is NaN come after
    them; every adjacent pair is ordered in that sense. *)
Theorem result_sorted_numeric_then_nan
  (w : world) (client : Client) (table_name order : string) (limit : Z)
  (data : list db_row) :
  supabase w = Some client ->
  client (national_query table_name) = Result data ->
  exists l,
    result_data (fst (get_avg_delay_by_station table_name limit order w))
    = Some l
    /\ Sorted (numeric_then_nan (sort_ascending order))
         (map avg_retard_moyen_depart l).
Proof.
  intros Hc Hr.
  exists (avg_delays data (sort_ascending order) limit). split.
  - now apply run_result_data with client.
  - apply avg_delays_sorted.
Qed.

(** C4, as the code has it: for a record set that is not empty and a limit
    that is not negative, the returned sequence has as many entries as there
    are distinct station names among the records, cut at [limit]; the count
    field is that length, and it is at most [limit]. *)
Theorem result_length_counts_named_stations
  (w : world) (client : Client) (table_name order : string) (limit : Z)
  (data : list db_row) :
  supabase w = Some client ->
  client (national_query table_name) = Result data ->
  data <> [] ->
  0 <= limit ->
  exists d l,
    fst (get_avg_delay_by_station table_name limit order w) = Returned d
    /\ dict_get "data" d = Some (PyRecords l)
    /\ List.length l
       = Nat.min (List.length (distinct_stations data)) (Z.to_nat limit)
    /\ dict_get "count" d = Some (PyInt (Z.of_nat (List.length l)))
    /\ Z.of_nat (List.length l) <= limit.
Proof.
  intros Hc Hr Hd Hl.
  rewrite (run_data w client _ _ _ data Hc Hr Hd). simpl.
  eexists. eexists. split; [reflexivity|]. simpl.
  split; [reflexivity|]. split; [now apply avg_delays_length|].
  split; [reflexivity|].
  rewrite avg_delays_length by exact Hl. lia.
Qed.

(** C2, as the code has it: the order of groups with equal means does not
    follow the order in which the groups were first met.  The grouping step
    arranges the groups by station name before the sort, so two record sets
    that hold the same records for every station, in the same order within
    the station, give the same result however the records of different
    stations are interleaved, and so whichever station comes first. *)
Theorem tie_order_ignores_first_seen
  (w w' : world) (client client' : Client) (table_name order : string)
  (limit : Z) (data data' : list db_row) :
  supabase w = Some client ->
  client (national_query table_name) = Result data ->
  supabase w' = Some client' ->
  client' (national_query table_name) = Result data' ->
  (forall k, records_of k data = records_of k data') ->
  result_data (fst (get_avg_delay_by_station table_name limit order w))
  = result_data (fst (get_avg_delay_by_station table_name limit order w'))
  /\ (data <> [] -> data' <> [] ->
      fst (get_avg_delay_by_station table_name limit order w)
      = fst (get_avg_delay_by_station table_name limit order w')).
Proof.
  intros Hc Hr Hc' Hr' Hsame.
  assert (E : avg_delays data (sort_ascending order) limit
              = avg_delays data' (sort_ascending order) limit).
  { unfold avg_delays. now rewrite (groupby_mean_same_groups data data'). }
  split.
  - rewrite (run_result_data w client _ _ _ data Hc Hr).
    rewrite (run_result_data w' client' _ _ _ data' Hc' Hr').
    now rewrite E.
  - intros Hd Hd'.
    rewrite (run_data w client _ _ _ data Hc Hr Hd).
    rewrite (run_data w' client' _ _ _ data' Hc' Hr' Hd').
    simpl. now rewrite E.
Qed.

(** Whatever the argsort does with equal keys, first-seen order fails on one
    of two record sets that hold the same two tied stations. *)
Lemma first_seen_order_fails_in_every_runtime :
  ~ (forall data l,
       result_data
         (fst (get_avg_delay_by_station "tgv-data" 10 "asc" (store data)))
       = Some l ->
       ties_in_first_seen_order data l).
Proof.
  intros H.
  pose proof (run_result_data (store tied_b_first)
                (fun _ => Result tied_b_first) "tgv-data" "asc" 10
                tied_b_first eq_refl eq_refl) as Hb.
  pose proof (run_result_data (store tied_a_first)
                (fun _ => Result tied_a_first) "tgv-data" "asc" 10
                tied_a_first eq_refl eq_refl) as Ha.
  assert (Hsame : avg_delays tied_a_first (sort_ascending "asc") 10
                  = avg_delays tied_b_first (sort_ascending "asc") 10).
  { unfold avg_delays.
    rewrite (groupby_mean_same_groups tied_a_first tied_b_first);
      [reflexivity|].
    intros k. unfold records_of, tied_a_first, tied_b_first, national.
    cbn [filter gare_depart].
    destruct (String.eqb_spec "A" k) as [<-|_]; [reflexivity|].
    destruct (String.eqb "B" k); reflexivity. }
  rewrite Hsame in Ha.
  set (l := avg_delays tied_b_first (sort_ascending "asc") 10) in *.
  assert (Hl : Permutation
                 [mk_avg "A" (Finite 5); mk_avg "B" (Finite 5)] l).
  { subst l. unfold avg_delays. rewrite head_all.
    - symmetry. apply sort_values_perm.
    - now rewrite sort_values_length. }
  apply H in Ha, Hb.
  apply Permutation_length_2_inv in Hl as [Hl|Hl]; rewrite Hl in *.
  - specialize (Hb 0%nat 1%nat _ _ (Nat.lt_0_1) eq_refl eq_refl).
    simpl in Hb. assert (1 < 0)%nat by (apply Hb; reflexivity). lia.
  - specialize (Ha 0%nat 1%nat _ _ (Nat.lt_0_1) eq_refl eq_refl).
    simpl in Ha. assert (1 < 0)%nat by (apply Ha; reflexivity). lia.
Qed.


(** C7: the route accepts a limit that is an integer from 1 to 100 (10 when
    absent) and one of the two order values, written ["asc"] for ascending
    and ["desc"] for descending (ascending when absent).  Any other request
    is answered 422 with the world untouched: no query reaches the store and
    the aggregation is not run.  An accepted request runs the aggregation
    once, with the validated values. *)
Theorem get_delays_validates_before_aggregating
  (req : delays_request) (execution_time : Q) (w : world) :
  (forall n, validate_limit (limit_param req) = Some n <->
             (limit_param req = IntAbsent /\ n = 10)
             \/ (limit_param req = IntValue n /\ 1 <= n <= 100))
  /\ (forall s, validate_order (order_param req) = Some s <->
                (order_param req = None /\ s = "asc")
                \/ (order_param req = Some s /\ (s = "asc" \/ s = "desc")))
  /\ (validate_limit (limit_param req) = None
      \/ validate_order (order_param req) = None ->
      get_delays req execution_time w = (Returned UnprocessableEntity, w))
  /\ (forall n s,
        validate_limit (limit_param req) = Some n ->
        validate_order (order_param req) = Some s ->
        exists body result,
          get_delays req execution_time w
          = (Returned (Handled body),
             snd (get_avg_delay_by_station
                    (validate_table_name (table_name_param req)) n s w))
          /\ fst (get_avg_delay_by_station
                    (validate_table_name (table_name_param req)) n s w)
             = Returned result
          /\ dict_get "result" body = Some (PyDict result)
          /\ dict_get "limit" body = Some (PyInt n)
          /\ dict_get "order" body = Some (PyStr s))
  /\ validate_order None = Some "asc"
  /\ sort_ascending "asc" = true
  /\ sort_ascending "desc" = false.
Proof.
  split; [|split; [|split; [|split; [|repeat split]]]].
  - intros n. unfold validate_limit.
    destruct (limit_param req) as [| |z]; split.
    + intros [= <-]. now left.
    + intros [[_ ->]|[H _]]; [reflexivity|discriminate].
    + discriminate.
    + intros [[H _]|[H _]]; discriminate.
    + destruct (Z.leb_spec 1 z), (Z.leb_spec z 100); simpl;
        intros [= <-]; right; split; auto; lia.
    + intros [[H _]|[[= ->] H]]; [discriminate|].
      destruct (Z.leb_spec 1 n), (Z.leb_spec n 100); simpl; auto; lia.
  - intros s. unfold validate_order.
    destruct (order_param req) as [o|]; split.
    + destruct (String.eqb_spec o "asc") as [->|]; simpl.
      * intros [= <-]. right. auto.
      * destruct (String.eqb_spec o "desc") as [->|]; [|discriminate].
        intros [= <-]. right. auto.
    + intros [[H _]|[[= ->] [->| ->]]]; [discriminate| |]; reflexivity.
    + intros [= <-]. now left.
    + intros [[_ ->]|[H _]]; [reflexivity|discriminate].
  - unfold get_delays. intros [H|H]; rewrite H; [reflexivity|].
    destruct (validate_limit (limit_param req)); reflexivity.
  - intros n s Hn Hs. unfold get_delays, bind. rewrite Hn, Hs.
    destruct (get_avg_delay_by_station
                (validate_table_name (table_name_param req)) n s w)
      as [[result|e] w1] eqn:E.
    + eexists. exists result. simpl. repeat split; reflexivity.
    + exfalso. revert E. unfold get_avg_delay_by_station, try_except, bind,
        execute, ret.
      destruct (supabase w) as [client|]; [|discriminate].
      destruct (client _) as [e'|[|r rest]]; discriminate.
Qed.

(** C8: a failure of the data source does not leave the function as an
    exception.  Without a client the error payload is returned and the world
    is untouched (no query, no aggregation); when the store raises, the
    message is returned as an error payload; and in every world the call
    returns a payload. *)
Theorem source_failures_are_payloads
  (w : world) (table_name order : string) (limit : Z) :
  (supabase w = None ->
   get_avg_delay_by_station table_name limit order w
   = (Returned [("error", PyStr "Supabase client not initialized")], w))
  /\ (forall client e,
        supabase w = Some client ->
        client (national_query table_name) = Raises e ->
        fst (get_avg_delay_by_station table_name limit order w)
        = Returned [("error", PyStr e)])
  /\ (exists d,
        fst (get_avg_delay_by_station table_name limit order w) = Returned d).
Proof.
  split; [|split].
  - apply run_not_initialized.
  - intros client e Hc Hr.
    now rewrite (run_raises w client table_name order e limit Hc Hr).
  - unfold get_avg_delay_by_station, try_except, bind, execute, ret.
    destruct (supabase w) as [client|]; [|eexists; reflexivity].
    destruct (client _) as [e|[|r rest]]; eexists; reflexivity.
Qed.

(** C9: the payload is a function of the store's answer and of the
    arguments.  A second call made in the world the first call left returns
    the same payload, and so do calls from worlds that differ only in the
    journal of past queries. *)
Theorem repeated_calls_agree
  (w : world) (table_name order : string) (limit : Z) :
  fst (get_avg_delay_by_station table_name limit order
         (snd (get_avg_delay_by_station table_name limit order w)))
  = fst (get_avg_delay_by_station table_name limit order w)
  /\ (forall w', supabase w' = supabase w ->
        fst (get_avg_delay_by_station table_name limit order w')
        = fst (get_avg_delay_by_station table_name limit order w)).
Proof.
  assert (H : forall w', supabase w' = supabase w ->
                fst (get_avg_delay_by_station table_name limit order w')
                = fst (get_avg_delay_by_station table_name limit order w)).
  { intros w' Hs.
    unfold get_avg_delay_by_station, try_except, bind, execute, ret.
    rewrite Hs. destruct (supabase w) as [client|]; [|reflexivity].
    destruct (client _) as [e|[|r rest]]; reflexivity. }
  split; [|exact H].
  apply H. unfold get_avg_delay_by_station, try_except, bind, execute, ret.
  destruct (supabase w) as [client|] eqn:E; [|exact E].
  destruct (client _) as [e|[|r rest]]; reflexivity.
Qed.

(** C10: the sort is ascending exactly when the lowercased [order] is
    ["asc"], that is for the eight spellings of it in upper and lower case.
    Whatever [order] is, the call is not refused: the rows returned are the
    first [limit] rows of a rearrangement of the group table whose numeric
    means are in non-decreasing order when the lowercased [order] is ["asc"]
    and in non-increasing order for every other string, ["ascending"] among
    them, with the NaN means last; for every other string the rows are the
    ones ["desc"] gives. *)
Theorem order_is_ascending_only_for_asc
  (w : world) (client : Client) (table_name order : string) (limit : Z)
  (data : list db_row) :
  supabase w = Some client ->
  client (national_query table_name) = Result data ->
  (lower order = "asc" <->
   In order ["asc"; "asC"; "aSc"; "aSC"; "Asc"; "AsC"; "ASc"; "ASC"])
  /\ (exists d l full,
        fst (get_avg_delay_by_station table_name limit order w) = Returned d
        /\ dict_get "error" d = None
        /\ dict_get "data" d = Some (PyRecords l)
        /\ Permutation full (groupby_mean (DataFrame data))
        /\ l = head limit full
        /\ (lower order = "asc" ->
            StronglySorted (numeric_then_nan true)
              (map avg_retard_moyen_depart full))
        /\ (lower order <> "asc" ->
            StronglySorted (numeric_then_nan false)
              (map avg_retard_moyen_depart full)
            /\ result_data
                 (fst (get_avg_delay_by_station table_name limit "desc" w))
               = Some l))
  /\ lower "ascending" <> "asc".
Proof.
  intros Hc Hr.
  assert (Hiff : sort_ascending order = true <-> lower order = "asc")
    by apply String.eqb_eq.
  split; [apply lower_asc_iff|]. split; [|discriminate].
  destruct (run_payload w client table_name order limit data Hc Hr)
    as (d & Hd & Herr & Hdata).
  exists d, (avg_delays data (sort_ascending order) limit),
    (sort_values (groupby_mean (DataFrame data)) (sort_ascending order)).
  split; [exact Hd|]. split; [exact Herr|]. split; [exact Hdata|].
  split; [apply sort_values_perm|]. split; [reflexivity|]. split.
  - intros Hasc. apply Hiff in Hasc. rewrite Hasc. apply sort_values_sorted.
  - intros Hne.
    assert (Hdesc : sort_ascending order = false).
    { destruct (sort_ascending order); [|reflexivity].
      exfalso. apply Hne, Hiff. reflexivity. }
    rewrite Hdesc. split; [apply sort_values_sorted|].
    exact (run_result_data w client table_name "desc" limit data Hc Hr).
Qed.


End Claims.

(** ** The claims on concrete record sets *)

(** C1 fails as stated: the only records of station A carry the delay "x",
    and A is returned, with mean NaN. *)
Lemma unparseable_station_is_returned :
  (forall r, In r only_unparseable -> gare_depart r = Some "A" ->
             to_numeric (retard_moyen_depart r) = NaN)
  /\ result_data
       (fst (get_avg_delay_by_station "tgv-data" 10 "asc"
               (store only_unparseable)))
     = Some [mk_avg "A" NaN].
Proof.
  split; [|reflexivity].
  intros r [<-|[]] _. reflexivity.
Qed.

Lemma unparseable_station_kept_with_nan_witness :
  exists l,
    result_data
      (fst (get_avg_delay_by_station "tgv-data" 10 "asc"
              (store unparseable_and_numeric)))
    = Some l
    /\ In (mk_avg "A" NaN) l
    /\ (forall i j a b,
          (i < j)%nat -> nth_error l i = Some a -> nth_error l j = Some b ->
          avg_retard_moyen_depart a = NaN -> avg_retard_moyen_depart b = NaN).
Proof.
  apply (unparseable_station_kept_with_nan
           (store unparseable_and_numeric)
           (fun _ => Result unparseable_and_numeric)
           "tgv-data" "asc" 10 unparseable_and_numeric "A").
  - reflexivity.
  - reflexivity.
  - simpl. auto.
  - intros r [<-|[<-|[]]]; simpl; [reflexivity|discriminate].
  - vm_compute. discriminate.
Defined.

(** C2 fails as stated: B is met first, A and B have the mean 5, and A is
    returned before B. *)
Lemma equal_means_come_out_by_station_name :
  exists l,
    result_data
      (fst (get_avg_delay_by_station "tgv-data" 10 "asc" (store tied_b_first)))
    = Some l
    /\ ~ ties_in_first_seen_order tied_b_first l.
Proof.
  exists [mk_avg "A" (Finite 5); mk_avg "B" (Finite 5)].
  split; [reflexivity|].
  intros H.
  specialize (H 0%nat 1%nat (mk_avg "A" (Finite 5)) (mk_avg "B" (Finite 5))).
  simpl in H.
  assert (Hlt : (1 < 0)%nat)
    by (apply H; [lia|reflexivity|reflexivity|reflexivity]).
  lia.
Qed.

Lemma tie_order_ignores_first_seen_witness :
  result_data
    (fst (get_avg_delay_by_station "tgv-data" 10 "desc" (store tied_b_first)))
  = result_data
      (fst (get_avg_delay_by_station "tgv-data" 10 "desc"
              (store tied_a_first)))
  /\ (tied_b_first <> [] -> tied_a_first <> [] ->
      fst (get_avg_delay_by_station "tgv-data" 10 "desc" (store tied_b_first))
      = fst (get_avg_delay_by_station "tgv-data" 10 "desc"
               (store tied_a_first))).
Proof.
  apply (tie_order_ignores_first_seen
           (store tied_b_first) (store tied_a_first)
           (fun _ => Result tied_b_first) (fun _ => Result tied_a_first)
           "tgv-data" "desc" 10 tied_b_first tied_a_first);
    try reflexivity.
  intros k. unfold records_of, tied_a_first, tied_b_first, national.
  cbn [filter gare_depart].
  destruct (String.eqb_spec "A" k) as [<-|_]; [reflexivity|].
  destruct (String.eqb "B" k); reflexivity.
Defined.

(** C3 fails as stated: the returned means are 5 and NaN in both directions,
    and neither 5 <= NaN nor 5 >= NaN holds. *)
Lemma nan_mean_breaks_adjacent_order :
  (exists l,
     result_data
       (fst (get_avg_delay_by_station "tgv-data" 10 "asc"
               (store unparseable_and_numeric)))
     = Some l
     /\ map avg_retard_moyen_depart l = [Finite 5; NaN]
     /\ ~ Sorted fle (map avg_retard_moyen_depart l))
  /\ (exists l,
        result_data
          (fst (get_avg_delay_by_station "tgv-data" 10 "desc"
                  (store unparseable_and_numeric)))
        = Some l
        /\ map avg_retard_moyen_depart l = [Finite 5; NaN]
        /\ ~ Sorted fge (map avg_retard_moyen_depart l)).
Proof.
  split; exists [mk_avg "B" (Finite 5); mk_avg "A" NaN];
    (split; [reflexivity|]); (split; [reflexivity|]);
    simpl; intros H;
    apply Sorted_inv in H as [_ H]; apply HdRel_inv in H; exact H.
Qed.

Lemma result_sorted_numeric_then_nan_witness :
  exists l,
    result_data
      (fst (get_avg_delay_by_station "tgv-data" 10 "desc"
              (store with_bad_record)))
    = Some l
    /\ Sorted (numeric_then_nan (sort_ascending "desc"))
         (map avg_retard_moyen_depart l).
Proof.
  apply (result_sorted_numeric_then_nan
           (store with_bad_record) (fun _ => Result with_bad_record)
           "tgv-data" "desc" 10 with_bad_record).
  - reflexivity.
  - reflexivity.
Defined.

(** C4 fails as stated: no station has a numeric delay, so there is no valid
    group, and one entry is returned. *)
Lemma length_counts_station_without_mean :
  valid_stations only_unparseable = []
  /\ exists l,
       result_data
         (fst (get_avg_delay_by_station "tgv-data" 10 "asc"
                 (store only_unparseable)))
       = Some l
       /\ List.length l
          <> Nat.min (List.length (valid_stations only_unparseable))
                     (Z.to_nat 10).
Proof.
  split; [reflexivity|].
  exists [mk_avg "A" NaN]. split; [reflexivity|].
  vm_compute. discriminate.
Qed.

Lemma result_length_counts_named_stations_witness :
  exists d l,
    fst (get_avg_delay_by_station "tgv-data" 1 "asc" (store with_bad_record))
    = Returned d
    /\ dict_get "data" d = Some (PyRecords l)
    /\ List.length l
       = Nat.min (List.length (distinct_stations with_bad_record))
                 (Z.to_nat 1)
    /\ dict_get "count" d = Some (PyInt (Z.of_nat (List.length l)))
    /\ Z.of_nat (List.length l) <= 1.
Proof.
  apply (result_length_counts_named_stations
           (store with_bad_record) (fun _ => Result with_bad_record)
           "tgv-data" "asc" 1 with_bad_record).
  - reflexivity.
  - reflexivity.
  - discriminate.
  - lia.
Defined.




Lemma order_is_ascending_only_for_asc_witness :
  lower "ascending" <> "asc"
  /\ exists d l full,
       fst (get_avg_delay_by_station "tgv-data" 10 "ascending"
              (store with_bad_record))
       = Returned d
       /\ dict_get "error" d = None
       /\ dict_get "data" d = Some (PyRecords l)
       /\ Permutation full (groupby_mean (DataFrame with_bad_record))
       /\ l = head 10 full
       /\ StronglySorted (numeric_then_nan false)
            (map avg_retard_moyen_depart full)
       /\ result_data
            (fst (get_avg_delay_by_station "tgv-data" 10 "desc"
                    (store with_bad_record)))
          = Some l.
Proof.
  destruct (order_is_ascending_only_for_asc
              (store with_bad_record) (fun _ => Result with_bad_record)
              "tgv-data" "ascending" 10 with_bad_record eq_refl eq_refl)
    as (_ & (d & l & full & H1 & H2 & H3 & H4 & H5 & _ & H7) & H8).
  split; [exact H8|].
  destruct (H7 H8) as [H9 H10].
  exists d, l, full. repeat split; assumption.
Defined.

(** ** The scenarios of the specification that the code follows *)

Example scenario_ascending :
  result_data
    (fst (get_avg_delay_by_station "tgv-data" 10 "asc"
            (store [national "A" (JNumber 10); national "A" (JNumber 20);
                    national "B" (JNumber 5)])))
  = Some [mk_avg "B" (Finite 5); mk_avg "A" (Finite 15)].
Proof. reflexivity. Qed.

Example scenario_descending_limit :
  result_data
    (fst (get_avg_delay_by_station "tgv-data" 1 "desc"
            (store [national "A" (JNumber 10); national "A" (JNumber 20);
                    national "B" (JNumber 5)])))
  = Some [mk_avg "A" (Finite 15)].
Proof. reflexivity. Qed.

Example scenario_limit_above_groups :
  dict_get "count"
    (match fst (get_avg_delay_by_station "tgv-data" 3 "asc"
                  (store [national "A" (JNumber 10); national "B" (JNumber 5)]))
     with Returned d => d | Raised _ => [] end)
  = Some (PyInt 2).
Proof. reflexivity. Qed.

(** * Further properties of the aggregation *)

Section Aggregation.

Context {P : PandasRuntime}.

Lemma groupby_mean_stations (df : frame) :
  map avg_gare_depart (groupby_mean df) = group_keys df.
Proof.
  unfold groupby_mean. rewrite map_map. simpl. apply map_id.
Qed.

Lemma NoDup_firstn {A : Type} (n : nat) (l : list A) :
  NoDup l -> NoDup (firstn n l).
Proof.
  intros H. rewrite <- (firstn_skipn n l) in H.
  now apply NoDup_app_remove_r in H.
Qed.

Lemma avg_delays_NoDup (data : list db_row) (ascending : bool) (limit : Z) :
  NoDup (map avg_gare_depart (avg_delays data ascending limit)).
Proof.
  unfold avg_delays.
  destruct (head_prefix limit
              (sort_values (groupby_mean (DataFrame data)) ascending))
    as [m ->].
  rewrite <- firstn_map. apply NoDup_firstn.
  apply Permutation_NoDup
    with (l := map avg_gare_depart (groupby_mean (DataFrame data))).
  - apply Permutation_map, Permutation_sym, sort_values_perm.
  - rewrite groupby_mean_stations. apply group_keys_NoDup.
Qed.

(** X1: no station is returned twice. *)
Theorem returned_stations_are_distinct
  (w : world) (client : Client) (table_name order : string) (limit : Z)
  (data : list db_row) :
  supabase w = Some client ->
  client (national_query table_name) = Result data ->
  exists l,
    result_data (fst (get_avg_delay_by_station table_name limit order w))
    = Some l
    /\ NoDup (map avg_gare_depart l).
Proof.
  intros Hc Hr.
  exists (avg_delays data (sort_ascending order) limit). split.
  - now apply run_result_data with client.
  - apply avg_delays_NoDup.
Qed.

(** X2: every returned station is the station of a fetched record, and
    when [limit] is at least the number of named stations, every station of
    a fetched record is returned. *)
Theorem returned_stations_are_the_fetched_ones
  (w : world) (client : Client) (table_name order : string) (limit : Z)
  (data : list db_row) :
  supabase w = Some client ->
  client (national_query table_name) = Result data ->
  exists l,
    result_data (fst (get_avg_delay_by_station table_name limit order w))
    = Some l
    /\ (forall k, In k (map avg_gare_depart l) ->
                  In (Some k) (map gare_depart data))
    /\ (Z.of_nat (List.length (distinct_stations data)) <= limit ->
        forall k, In (Some k) (map gare_depart data) ->
                  In k (map avg_gare_depart l)).
Proof.
  intros Hc Hr.
  exists (avg_delays data (sort_ascending order) limit).
  split; [now apply run_result_data with client|]. split.
  - intros k Hk. apply in_map_iff in Hk as [r [<- Hr']].
    now apply avg_delays_incl, groupby_mean_In in Hr' as [Hin _].
  - intros Hl k Hk. apply in_map_iff.
    exists (mk_avg k (nanmean (group_values k (DataFrame data)))).
    split; [reflexivity|].
    apply avg_delays_all; [exact Hl|].
    apply groupby_mean_In. simpl. now split.
Qed.

(** X3: a smaller limit returns the first rows of what a larger limit
    returns; raising the limit only appends stations. *)
Theorem smaller_limit_is_a_prefix
  (w : world) (client : Client) (table_name order : string) (n m : Z)
  (data : list db_row) :
  supabase w = Some client ->
  client (national_query table_name) = Result data ->
  0 <= n <= m ->
  exists l,
    result_data (fst (get_avg_delay_by_station table_name m order w)) = Some l
    /\ result_data (fst (get_avg_delay_by_station table_name n order w))
       = Some (firstn (Z.to_nat n) l).
Proof.
  intros Hc Hr Hnm.
  exists (avg_delays data (sort_ascending order) m).
  rewrite !(run_result_data w client _ _ _ data Hc Hr).
  split; [reflexivity|]. f_equal.
  unfold avg_delays, head.
  destruct (Z.leb_spec 0 n); [|lia]. destruct (Z.leb_spec 0 m); [|lia].
  rewrite firstn_firstn. f_equal. lia.
Qed.

Lemma groupby_mean_skips_null (l1 l2 : list db_row) (r : db_row) :
  gare_depart r = None ->
  groupby_mean (DataFrame (l1 ++ r :: l2))
  = groupby_mean (DataFrame (l1 ++ l2)).
Proof.
  intros Hn. unfold groupby_mean, group_keys, station_keys, group_values,
    DataFrame.
  rewrite !map_app. simpl. rewrite !flat_map_app. simpl. rewrite Hn. simpl.
  apply map_ext. intros k. now rewrite !flat_map_app.
Qed.

(** X4: a record without a station name contributes nothing: the rows
    returned are those returned without it. *)
Theorem null_station_records_are_ignored
  (w w' : world) (client client' : Client) (table_name order : string)
  (limit : Z) (l1 l2 : list db_row) (r : db_row) :
  supabase w = Some client ->
  client (national_query table_name) = Result (l1 ++ r :: l2)%list ->
  supabase w' = Some client' ->
  client' (national_query table_name) = Result (l1 ++ l2)%list ->
  gare_depart r = None ->
  result_data (fst (get_avg_delay_by_station table_name limit order w))
  = result_data (fst (get_avg_delay_by_station table_name limit order w')).
Proof.
  intros Hc Hr Hc' Hr' Hn.
  rewrite (run_result_data w client _ _ _ _ Hc Hr).
  rewrite (run_result_data w' client' _ _ _ _ Hc' Hr').
  unfold avg_delays. now rewrite groupby_mean_skips_null.
Qed.

(** X6: a call leaves the client as it is and, when there is a client,
    sends one query to the store: the three columns of the table it was
    given, filtered on service = National, whatever [limit] and [order]. *)
Theorem one_national_query_per_call
  (w : world) (table_name order : string) (limit : Z) :
  supabase (snd (get_avg_delay_by_station table_name limit order w))
  = supabase w
  /\ journal (snd (get_avg_delay_by_station table_name limit order w))
     = (journal w
        ++ match supabase w with
           | Some _ =>
               [mk_query table_name
                         "gare_depart, retard_moyen_depart, service"
                         ("service", "National")]
           | None => []
           end)%list.
Proof.
  unfold get_avg_delay_by_station, try_except, bind, execute, ret.
  destruct (supabase w) as [client|] eqn:E; simpl.
  - destruct (client _) as [e|[|r rest]]; simpl; auto.
  - rewrite app_nil_r. auto.
Qed.

(** X7: a negative limit is not refused by the function: [head] then
    leaves out the last [-limit] groups, and the count follows. *)
Theorem negative_limit_drops_the_last_groups
  (w : world) (client : Client) (table_name order : string) (limit : Z)
  (data : list db_row) :
  supabase w = Some client ->
  client (national_query table_name) = Result data ->
  data <> [] ->
  limit < 0 ->
  exists d l,
    fst (get_avg_delay_by_station table_name limit order w) = Returned d
    /\ dict_get "error" d = None
    /\ dict_get "data" d = Some (PyRecords l)
    /\ dict_get "count" d = Some (PyInt (Z.of_nat (List.length l)))
    /\ List.length l
       = (List.length (distinct_stations data) - Z.to_nat (- limit))%nat
    /\ l = firstn (List.length l)
             (sort_values (groupby_mean (DataFrame data))
                          (sort_ascending order)).
Proof.
  intros Hc Hr Hd Hl.
  rewrite (run_data w client _ _ _ data Hc Hr Hd). simpl.
  eexists. eexists. split; [reflexivity|]. simpl.
  split; [reflexivity|]. split; [reflexivity|]. split; [reflexivity|].
  unfold avg_delays, head. destruct (Z.leb_spec 0 limit); [lia|].
  rewrite length_firstn, sort_values_length, groupby_mean_length.
  split; [lia|]. f_equal. lia.
Qed.

(** X8: when every fetched record lacks a station name, the function does
    not take the empty-store exit: it returns the full payload, with no
    row, a count of 0 and no message. *)
Theorem records_without_station_give_count_zero
  (w : world) (client : Client) (table_name order : string) (limit : Z)
  (data : list db_row) :
  supabase w = Some client ->
  client (national_query table_name) = Result data ->
  data <> [] ->
  (forall r, In r data -> gare_depart r = None) ->
  exists d,
    fst (get_avg_delay_by_station table_name limit order w) = Returned d
    /\ dict_get "data" d = Some (PyRecords [])
    /\ dict_get "count" d = Some (PyInt 0)
    /\ dict_get "message" d = None
    /\ dict_get "error" d = None.
Proof.
  intros Hc Hr Hd Hnull.
  assert (E : avg_delays data (sort_ascending order) limit = []).
  { destruct (avg_delays data (sort_ascending order) limit) as [|r rest] eqn:E;
      [reflexivity|].
    assert (Hin : In r (avg_delays data (sort_ascending order) limit))
      by (rewrite E; now left).
    apply avg_delays_incl, groupby_mean_In in Hin as [Hin _].
    apply in_map_iff in Hin as [r' [Hk Hr']].
    rewrite (Hnull r' Hr') in Hk. discriminate. }
  rewrite (run_data w client _ _ _ data Hc Hr Hd), E. simpl.
  eexists. repeat split; reflexivity.
Qed.

Lemma StronglySorted_map_inv {A B : Type} (R : B -> B -> Prop) (f : A -> B)
  (l : list A) :
  StronglySorted R (map f l) ->
  StronglySorted (fun x y => R (f x) (f y)) l.
Proof.
  induction l as [|x l IH]; simpl; intros H; [constructor|].
  apply StronglySorted_inv in H as [Hs Hall].
  constructor; [now apply IH|]. now rewrite Forall_map in Hall.
Qed.

Lemma sorted_perm_unique {A : Type} (R : A -> A -> Prop) (l1 l2 : list A) :
  Permutation l1 l2 ->
  StronglySorted R l1 -> StronglySorted R l2 ->
  (forall a b, In a l1 -> In b l1 -> R a b -> R b a -> a = b) ->
  l1 = l2.
Proof.
  revert l2. induction l1 as [|x t1 IH]; intros l2 Hp H1 H2 Hanti.
  - now apply Permutation_nil in Hp.
  - destruct l2 as [|y t2].
    + symmetry in Hp. now apply Permutation_nil in Hp.
    + apply StronglySorted_inv in H1 as [Hs1 Hall1].
      apply StronglySorted_inv in H2 as [Hs2 Hall2].
      rewrite Forall_forall in Hall1, Hall2.
      assert (Hxy : x = y).
      { assert (Hx : In x (y :: t2))
          by (apply (Permutation_in _ Hp); now left).
        assert (Hy : In y (x :: t1))
          by (apply (Permutation_in _ (Permutation_sym Hp)); now left).
        destruct Hx as [Hx|Hx]; [now symmetry|].
        destruct Hy as [Hy|Hy]; [exact Hy|].
        apply Hanti; [now left|now right|now apply Hall1|now apply Hall2]. }
      subst y. f_equal. apply IH; try assumption.
      * now apply Permutation_cons_inv in Hp.
      * intros a b Ha Hb. apply Hanti; now right.
Qed.

(** X9: when [limit] covers all the stations, every station has a numeric
    mean and no two means are equal, the descending result is the ascending
    result read backwards. *)
Theorem descending_is_ascending_reversed
  (w : world) (client : Client) (table_name : string) (limit : Z)
  (data : list db_row) :
  supabase w = Some client ->
  client (national_query table_name) = Result data ->
  Z.of_nat (List.length (distinct_stations data)) <= limit ->
  exists la ld,
    result_data (fst (get_avg_delay_by_station table_name limit "asc" w))
    = Some la
    /\ result_data (fst (get_avg_delay_by_station table_name limit "desc" w))
       = Some ld
    /\ ((forall a, In a la -> avg_retard_moyen_depart a <> NaN) ->
        (forall a b, In a la -> In b la ->
                     same_mean (avg_retard_moyen_depart a)
                               (avg_retard_moyen_depart b) -> a = b) ->
        ld = rev la).
Proof.
  intros Hc Hr Hl.
  exists (avg_delays data true limit), (avg_delays data false limit).
  split; [exact (run_result_data w client _ "asc" _ data Hc Hr)|].
  split; [exact (run_result_data w client _ "desc" _ data Hc Hr)|].
  intros Hnum Hties.
  set (la := avg_delays data true limit) in *.
  set (ld := avg_delays data false limit).
  set (R := fun a b : avg_record =>
              numeric_then_nan false (avg_retard_moyen_depart a)
                               (avg_retard_moyen_depart b)).
  assert (Hperm : Permutation ld (rev la)).
  { rewrite <- Permutation_rev. subst la ld. unfold avg_delays.
    rewrite !head_all
      by now rewrite sort_values_length, groupby_mean_length.
    rewrite sort_values_perm. symmetry. apply sort_values_perm. }
  assert (Hin : forall a, In a ld -> In a la).
  { intros a Ha. apply in_rev. now apply (Permutation_in _ Hperm). }
  apply (sorted_perm_unique R); [exact Hperm| | |].
  - apply (StronglySorted_map_inv (numeric_then_nan false)
             avg_retard_moyen_depart).
    apply avg_delays_strongly_sorted.
  - rewrite <- (map_id (rev la)).
    apply StronglySorted_map_in
      with (R := fun x y =>
                   numeric_then_nan true (avg_retard_moyen_depart y)
                                    (avg_retard_moyen_depart x)).
    + apply StronglySorted_rev
        with (R := fun x y =>
                     numeric_then_nan true (avg_retard_moyen_depart x)
                                      (avg_retard_moyen_depart y)).
      apply (StronglySorted_map_inv (numeric_then_nan true)
               avg_retard_moyen_depart).
      apply avg_delays_strongly_sorted.
    + intros x y Hx Hy. apply in_rev in Hx, Hy.
      pose proof (Hnum x Hx). pose proof (Hnum y Hy). unfold R.
      destruct (avg_retard_moyen_depart x), (avg_retard_moyen_depart y);
        simpl; auto; congruence.
  - intros a b Ha Hb Hab Hba. apply Hin in Ha, Hb.
    apply Hties; [exact Ha|exact Hb|].
    pose proof (Hnum a Ha). pose proof (Hnum b Hb). unfold R in *.
    destruct (avg_retard_moyen_depart a), (avg_retard_moyen_depart b);
      simpl in *; try congruence.
    now apply Qle_antisym.
Qed.

End Aggregation.

(** * Further properties of the route *)

Section Route.

Context {P : PandasRuntime}.

Lemma validate_limit_range (p : int_param) (n : Z) :
  validate_limit p = Some n -> 1 <= n <= 100.
Proof.
  destruct p as [| |z]; simpl; [intros [= <-]; lia|discriminate|].
  destruct (Z.leb_spec 1 z), (Z.leb_spec z 100); simpl; intros [= <-]; lia.
Qed.

Lemma validate_order_tokens (p : option string) (s : string) :
  validate_order p = Some s -> s = "asc" \/ s = "desc".
Proof.
  destruct p as [o|]; simpl; [|intros [= <-]; now left].
  destruct (String.eqb_spec o "asc") as [->|]; simpl;
    [intros [= <-]; now left|].
  destruct (String.eqb_spec o "desc") as [->|]; [|discriminate].
  intros [= <-]. now right.
Qed.

Lemma get_delays_run (req : delays_request) (execution_time : Q) (w : world)
  (n : Z) (s : string) (result : pydict) (w' : world) :
  validate_limit (limit_param req) = Some n ->
  validate_order (order_param req) = Some s ->
  get_avg_delay_by_station (validate_table_name (table_name_param req)) n s w
  = (Returned result, w') ->
  get_delays req execution_time w
  = (Returned
       (Handled
          [("method", PyStr "pandas");
           ("execution_time_ms", PyFloat execution_time);
           ("table_name", PyStr (validate_table_name (table_name_param req)));
           ("limit", PyInt n);
           ("order", PyStr s);
           ("description",
            PyStr ("Top " ++ str_int n ++ " "
                   ++ (if String.eqb s "asc" then "best (lowest delays)"
                       else "worst (highest delays)")
                   ++ " stations"));
           ("result", PyDict result)]), w').
Proof.
  intros Hn Hs Hrun. unfold get_delays, bind. now rewrite Hn, Hs, Hrun.
Qed.

Lemma nan_row_not_encodable (l : list avg_record) :
  (exists r, In r l /\ avg_retard_moyen_depart r = NaN) ->
  forallb (fun r => negb (isnan (avg_retard_moyen_depart r))) l = false.
Proof.
  intros [r [Hin Hnan]].
  destruct (forallb _ l) eqn:E; [|reflexivity].
  rewrite forallb_forall in E. specialize (E r Hin).
  rewrite Hnan in E. discriminate.
Qed.

(** X10: on a validated request with records in the store, the dict that
    the route function returns holds at most [limit] and at most 100
    stations, as many as there are named stations below that, its count
    says so, and the rows are sorted in the direction the route was asked
    for.  When one of these rows has the mean NaN the dict cannot be
    encoded, and the request is answered 500. *)
Theorem route_returns_at_most_limit_stations
  (req : delays_request) (execution_time : Q) (w : world) (client : Client)
  (data : list db_row) (n : Z) (s : string) :
  validate_limit (limit_param req) = Some n ->
  validate_order (order_param req) = Some s ->
  supabase w = Some client ->
  client (national_query (validate_table_name (table_name_param req)))
  = Result data ->
  data <> [] ->
  exists body result l,
    fst (get_delays req execution_time w) = Returned (Handled body)
    /\ dict_get "result" body = Some (PyDict result)
    /\ dict_get "data" result = Some (PyRecords l)
    /\ dict_get "count" result = Some (PyInt (Z.of_nat (List.length l)))
    /\ List.length l
       = Nat.min (List.length (distinct_stations data)) (Z.to_nat n)
    /\ (List.length l <= 100)%nat
    /\ Sorted (numeric_then_nan (String.eqb s "asc"))
         (map avg_retard_moyen_depart l)
    /\ ((exists r, In r l /\ avg_retard_moyen_depart r = NaN) ->
        respond (fst (get_delays req execution_time w)) = Response500).
Proof.
  intros Hn Hs Hc Hr Hd.
  pose proof (validate_limit_range _ _ Hn) as Hrange.
  rewrite (get_delays_run req execution_time w n s _ _ Hn Hs
             (run_data w client _ s n data Hc Hr Hd)).
  eexists. eexists. eexists. split; [reflexivity|]. simpl.
  split; [reflexivity|]. simpl. split; [reflexivity|].
  split; [reflexivity|].
  rewrite avg_delays_length by lia.
  split; [reflexivity|]. split; [lia|]. split.
  - replace (String.eqb s "asc") with (sort_ascending s)
      by (destruct (validate_order_tokens _ _ Hs) as [-> | ->]; reflexivity).
    apply avg_delays_sorted.
  - intros Hnan. apply nan_row_not_encodable in Hnan. now rewrite Hnan.
Qed.

(** X11: the route and the function test the direction each in its own
    way ([order == "asc"] and [order.lower() == "asc"]); on a validated
    request with records the two agree, so the outer description says best
    exactly when the inner one says lowest, and both echo the same order and
    table name. *)
Theorem route_and_function_describe_the_same_direction
  (req : delays_request) (execution_time : Q) (w : world) (client : Client)
  (data : list db_row) (n : Z) (s : string) :
  validate_limit (limit_param req) = Some n ->
  validate_order (order_param req) = Some s ->
  supabase w = Some client ->
  client (national_query (validate_table_name (table_name_param req)))
  = Result data ->
  data <> [] ->
  exists body result,
    fst (get_delays req execution_time w) = Returned (Handled body)
    /\ dict_get "result" body = Some (PyDict result)
    /\ dict_get "order" body = Some (PyStr s)
    /\ dict_get "order" result = Some (PyStr s)
    /\ dict_get "table_name" body = dict_get "table_name" result
    /\ ((s = "asc"
         /\ dict_get "description" body
            = Some (PyStr ("Top " ++ str_int n
                           ++ " best (lowest delays) stations"))
         /\ dict_get "description" result
            = Some (PyStr ("Top " ++ str_int n
                           ++ " National service stations with lowest"
                           ++ " average delays")))
        \/ (s = "desc"
            /\ dict_get "description" body
               = Some (PyStr ("Top " ++ str_int n
                              ++ " worst (highest delays) stations"))
            /\ dict_get "description" result
               = Some (PyStr ("Top " ++ str_int n
                              ++ " National service stations with highest"
                              ++ " average delays")))).
Proof.
  intros Hn Hs Hc Hr Hd.
  rewrite (get_delays_run req execution_time w n s _ _ Hn Hs
             (run_data w client _ s n data Hc Hr Hd)).
  eexists. eexists. split; [reflexivity|]. simpl.
  split; [reflexivity|]. simpl.
  split; [reflexivity|]. split; [reflexivity|]. split; [reflexivity|].
  destruct (validate_order_tokens _ _ Hs) as [-> | ->]; [left|right];
    repeat split; reflexivity.
Qed.

End Route.

(** * Properties of the other functions *)

(** ** get_unique_stations_count_from_db *)

Lemma named_length (column : list (option string)) :
  (List.length (named column) <= List.length column)%nat.
Proof.
  induction column as [|[k|] rest IH]; simpl; lia.
Qed.

Lemma nodup_length_le (l : list string) :
  (List.length (nodup string_dec l) <= List.length l)%nat.
Proof.
  induction l as [|x rest IH]; simpl; [lia|].
  destruct (in_dec string_dec x rest); simpl; lia.
Qed.

Lemma nunique_le_length (column : list (option string)) :
  (nunique column <= List.length column)%nat.
Proof.
  unfold nunique.
  pose proof (nodup_length_le (named column)).
  pose proof (named_length column). lia.
Qed.

Lemma nunique_zero (column : list (option string)) :
  nunique column = 0%nat <-> forall v, In v column -> v = None.
Proof.
  unfold nunique. rewrite length_zero_iff_nil. split.
  - intros H [k|] Hv; [|reflexivity]. exfalso.
    assert (Hk : In k (nodup string_dec (named column))).
    { apply nodup_In. unfold named. apply in_flat_map.
      exists (Some k). split; [exact Hv|now left]. }
    now rewrite H in Hk.
  - intros H. destruct (nodup string_dec (named column)) as [|k rest] eqn:E;
      [reflexivity|].
    assert (Hk : In k (named column))
      by (apply (nodup_In string_dec); rewrite E; now left).
    unfold named in Hk. apply in_flat_map in Hk as [v [Hv Hk]].
    rewrite (H v Hv) in Hk. destruct Hk.
Qed.

Lemma nunique_perm (column column' : list (option string)) :
  Permutation column column' -> nunique column = nunique column'.
Proof.
  intros Hp. unfold nunique.
  assert (Hn : Permutation (named column) (named column'))
    by now apply Permutation_flat_map_compat.
  apply Permutation_length, NoDup_Permutation; try apply NoDup_nodup.
  intros x. rewrite !nodup_In.
  split; apply Permutation_in; [exact Hn|now symmetry].
Qed.

Lemma nunique_stations (rows : list db_row) :
  nunique (map gare_depart rows) = List.length (distinct_stations rows).
Proof.
  unfold nunique, distinct_stations, stations. do 2 f_equal.
  induction rows as [|r rest IH]; simpl; [reflexivity|]. now rewrite IH.
Qed.

Lemma run_unique (p : process) (s : Service) (table_name : string)
  (data : list (option string)) :
  supabase_handle p = Some s ->
  select_column s table_name "gare_depart" = ColumnResult data ->
  data <> [] ->
  get_unique_stations_count_from_db table_name p
  = (Returned [("unique_stations_count", PyInt (Z.of_nat (nunique data)));
               ("total_records", PyInt (Z.of_nat (List.length data)));
               ("table_name", PyStr table_name);
               ("service_filter", PyStr "National")],
     record_request (SelectColumn table_name "gare_depart") p).
Proof.
  intros Hs Hr Hd.
  unfold get_unique_stations_count_from_db, app_try, app_bind, execute_column.
  rewrite Hs, Hr. destruct data; [congruence|reflexivity].
Qed.

(** X12: with rows in the table, the unique count is the number of distinct
    station names, nulls left out, and the total is the number of rows; the
    unique count is at most the total, and it is 0 exactly when no row has a
    station name. *)
Theorem unique_count_is_at_most_total
  (p : process) (s : Service) (table_name : string)
  (data : list (option string)) :
  supabase_handle p = Some s ->
  select_column s table_name "gare_depart" = ColumnResult data ->
  data <> [] ->
  exists d unique total,
    fst (get_unique_stations_count_from_db table_name p) = Returned d
    /\ dict_get "unique_stations_count" d = Some (PyInt unique)
    /\ dict_get "total_records" d = Some (PyInt total)
    /\ unique = Z.of_nat (List.length (nodup string_dec (named data)))
    /\ total = Z.of_nat (List.length data)
    /\ 0 <= unique <= total
    /\ 0 < total
    /\ (unique = 0 <-> forall v, In v data -> v = None).
Proof.
  intros Hs Hr Hd. rewrite (run_unique p s _ data Hs Hr Hd).
  eexists. eexists. eexists. split; [reflexivity|]. simpl.
  split; [reflexivity|]. split; [reflexivity|]. split; [reflexivity|].
  split; [reflexivity|].
  pose proof (nunique_le_length data) as Hle.
  split; [lia|].
  split; [destruct data; [congruence|simpl List.length; lia]|].
  rewrite <- nunique_zero. lia.
Qed.

(** X13: the counts do not depend on the order in which the store returns
    the rows. *)
Theorem unique_count_ignores_row_order
  (p p' : process) (s s' : Service) (table_name : string)
  (data data' : list (option string)) :
  supabase_handle p = Some s ->
  select_column s table_name "gare_depart" = ColumnResult data ->
  supabase_handle p' = Some s' ->
  select_column s' table_name "gare_depart" = ColumnResult data' ->
  Permutation data data' ->
  fst (get_unique_stations_count_from_db table_name p)
  = fst (get_unique_stations_count_from_db table_name p').
Proof.
  intros Hs Hr Hs' Hr' Hp.
  destruct data as [|v rest].
  - apply Permutation_nil in Hp. subst data'.
    unfold get_unique_stations_count_from_db, app_try, app_bind,
      execute_column.
    now rewrite Hs, Hr, Hs', Hr'.
  - assert (Hd' : data' <> []).
    { intros ->. symmetry in Hp. apply Permutation_nil in Hp. discriminate. }
    rewrite (run_unique p s _ (v :: rest) Hs Hr) by discriminate.
    rewrite (run_unique p' s' _ data' Hs' Hr' Hd'). cbn [fst].
    now rewrite (nunique_perm _ _ Hp), (Permutation_length Hp).
Qed.

(** X14: the function never raises.  Without a client it returns the error
    payload and sends nothing; with one it sends a single select of the
    column [gare_depart] that carries no filter, although the payload is
    labelled National; a failure of the store comes back as an error
    payload; and an empty table gives a count of 0 with a message and
    without the total. *)
Theorem unique_count_exits
  (p : process) (table_name : string) :
  (exists d,
     fst (get_unique_stations_count_from_db table_name p) = Returned d)
  /\ (supabase_handle p = None ->
      get_unique_stations_count_from_db table_name p
      = (Returned [("error", PyStr "Supabase client not initialized")], p))
  /\ (forall s, supabase_handle p = Some s ->
        snd (get_unique_stations_count_from_db table_name p)
        = mk_process (Some s)
            (sent p ++ [SelectColumn table_name "gare_depart"])
        /\ (forall e, select_column s table_name "gare_depart"
                      = ColumnRaises e ->
              fst (get_unique_stations_count_from_db table_name p)
              = Returned [("error", PyStr e)])
        /\ (select_column s table_name "gare_depart" = ColumnResult [] ->
            exists d,
              fst (get_unique_stations_count_from_db table_name p)
              = Returned d
              /\ dict_get "unique_stations_count" d = Some (PyInt 0)
              /\ dict_get "message" d
                 = Some (PyStr "No National service data found")
              /\ dict_get "service_filter" d = Some (PyStr "National")
              /\ dict_get "total_records" d = None)).
Proof.
  unfold get_unique_stations_count_from_db, app_try, app_bind,
    execute_column, app_ret, record_request.
  destruct (supabase_handle p) as [s|] eqn:Hs.
  - split; [|split; [discriminate|]].
    + destruct (select_column s table_name "gare_depart") as [e|[|v rest]];
        eexists; reflexivity.
    + intros s' [= <-]. split; [|split].
      * destruct (select_column s table_name "gare_depart") as [e|[|v rest]];
          reflexivity.
      * intros e ->. reflexivity.
      * intros ->. eexists. repeat split; reflexivity.
  - split; [eexists; reflexivity|]. split; [reflexivity|]. discriminate.
Qed.

Section Agreement.

Context {P : PandasRuntime}.

Lemma in_process_run {A : Type} (m : Py A) (p : process) :
  in_process m p
  = (fst (m (engine_view p)),
     mk_process (supabase_handle p)
                (sent p ++ map SelectWhere (journal (snd (m (engine_view p)))))).
Proof.
  unfold in_process. now destruct (m (engine_view p)).
Qed.

(** X15: when the store answers both functions from the same rows, the
    unique count equals the count of the aggregation for any limit that
    covers it: both count the distinct non-null station names. *)
Theorem unique_count_agrees_with_aggregation
  (p : process) (s : Service) (table_name order : string) (limit : Z)
  (rows : list db_row) :
  supabase_handle p = Some s ->
  select_where s (national_query table_name) = Result rows ->
  select_column s table_name "gare_depart"
  = ColumnResult (map gare_depart rows) ->
  rows <> [] ->
  Z.of_nat (nunique (map gare_depart rows)) <= limit ->
  exists d1 d2 n,
    fst (in_process (get_avg_delay_by_station table_name limit order) p)
    = Returned d1
    /\ fst (get_unique_stations_count_from_db table_name p) = Returned d2
    /\ dict_get "count" d1 = Some (PyInt n)
    /\ dict_get "unique_stations_count" d2 = Some (PyInt n).
Proof.
  intros Hs Hw Hcol Hd Hl.
  rewrite in_process_run.
  rewrite (run_data (engine_view p) (select_where s) _ _ _ rows)
    by (auto; unfold engine_view; now rewrite Hs).
  rewrite (run_unique p s _ _ Hs Hcol)
    by (destruct rows; [congruence|discriminate]).
  eexists. eexists. eexists. split; [reflexivity|]. split; [reflexivity|].
  simpl. split; [reflexivity|]. do 2 f_equal.
  rewrite nunique_stations in *. rewrite avg_delays_length by lia. lia.
Qed.

End Agreement.

(** ** get_table_info, check_table_exists and the row count route *)

(** X16: without a client the row count route still answers: it sends
    nothing to the store, and what it returns under ["row_count"] is not a
    number but the dictionary that reports the missing client. *)
Theorem row_count_without_client_is_a_dict (p : process) :
  supabase_handle p = None ->
  get_count_rows p
  = (Returned
       (ODict [("row_count",
                ODict [("exists", OBool false);
                       ("error", OStr "Supabase client not initialized")])]),
     p)
  /\ get_table_info "tgv-data" p
     = (Returned
          (ODict [("exists", OBool false);
                  ("error", OStr "Supabase client not initialized")]), p).
Proof.
  intros H. unfold get_count_rows, get_table_info, app_bind, app_ret.
  now rewrite H.
Qed.

(** X17: with a client the row count route sends one count query for the
    table [tgv-data].  It passes on the count the store reports, 0 when the
    response has no count; and, having no [try], it lets an exception of the
    store through, where [check_table_exists] on the same process returns
    [None]. *)
Theorem row_count_with_client (p : process) (s : Service) :
  supabase_handle p = Some s ->
  snd (get_count_rows p) = record_request (SelectCount "tgv-data") p
  /\ (forall n, select_count s "tgv-data" = CountResult (CountAttr (Some n)) ->
        fst (get_count_rows p) = Returned (ODict [("row_count", OInt n)]))
  /\ (select_count s "tgv-data" = CountResult NoCountAttr ->
      fst (get_count_rows p) = Returned (ODict [("row_count", OInt 0)]))
  /\ (forall e, select_count s "tgv-data" = CountRaises e ->
        fst (get_count_rows p) = Raised e
        /\ fst (get_table_info "tgv-data" p) = Raised e
        /\ fst (check_table_exists "tgv-data" p) = Returned ONone).
Proof.
  intros Hs.
  unfold get_count_rows, get_table_info, check_table_exists, app_try,
    app_bind, app_ret, execute_count.
  rewrite Hs. split; [|split; [|split]].
  - destruct (select_count s "tgv-data"); reflexivity.
  - intros n ->. reflexivity.
  - intros ->. reflexivity.
  - intros e ->. repeat split; reflexivity.
Qed.

(** X18: [check_table_exists] never raises and its result does not tell
    whether the table exists: with a client it sends one count query and
    returns [None] whatever the store answers; without one it sends nothing
    and returns the dictionary that reports the missing client. *)
Theorem check_table_exists_tells_nothing (p : process) (table_name : string) :
  (supabase_handle p = None ->
   check_table_exists table_name p = (Returned not_initialized, p))
  /\ (forall s, supabase_handle p = Some s ->
        check_table_exists table_name p
        = (Returned ONone, record_request (SelectCount table_name) p)).
Proof.
  unfold check_table_exists, app_try, app_bind, app_ret, execute_count.
  split.
  - intros ->. reflexivity.
  - intros s ->. destruct (select_count s table_name); reflexivity.
Qed.

(** ** initialize_supabase and the start-up hook *)

(** X19: [initialize_supabase] sends nothing to the store.  When a
    credential is missing or empty it changes nothing, a client that was
    there included; with both credentials the client is the one
    [create_client] makes, and an exception of [create_client] is let
    through. *)
Theorem initialize_needs_both_credentials (env : environment) (p : process) :
  sent (snd (initialize_supabase env p)) = sent p
  /\ (truthy (SUPABASE_URL env) && truthy (SUPABASE_KEY env) = false ->
      initialize_supabase env p = (Returned tt, p))
  /\ (forall url key,
        SUPABASE_URL env = Some url -> SUPABASE_KEY env = Some key ->
        url <> "" -> key <> "" ->
        initialize_supabase env p
        = match create_client env url key with
          | Created s => (Returned tt, mk_process (Some s) (sent p))
          | CreateRaises e => (Raised e, p)
          end).
Proof.
  unfold initialize_supabase. split; [|split].
  - destruct (SUPABASE_URL env) as [url|], (SUPABASE_KEY env) as [key|];
      try reflexivity.
    destruct (truthy (Some url) && truthy (Some key)); [|reflexivity].
    destruct (create_client env url key); reflexivity.
  - destruct (SUPABASE_URL env) as [url|], (SUPABASE_KEY env) as [key|];
      try reflexivity.
    intros ->. reflexivity.
  - intros url key -> -> Hu Hk. simpl.
    apply String.eqb_neq in Hu, Hk. now rewrite Hu, Hk.
Qed.

(** X20: the start-up hook does not fail because of the store.  Once
    [initialize_supabase] has returned, the hook returns, whether the table
    exists, the count query raises or there is no client at all; it has
    sent the count query for [tgv-data] when there is a client and nothing
    otherwise. *)
Theorem startup_survives_the_store
  (env : environment) (p p1 : process) :
  initialize_supabase env p = (Returned tt, p1) ->
  startup_event env p
  = (Returned tt,
     match supabase_handle p1 with
     | Some _ => record_request (SelectCount "tgv-data") p1
     | None => p1
     end).
Proof.
  intros Hi. unfold startup_event, app_bind. rewrite Hi.
  unfold check_table_exists, app_try, app_bind, app_ret, execute_count.
  destruct (supabase_handle p1) as [s|]; [|reflexivity].
  destruct (select_count s "tgv-data"); reflexivity.
Qed.

Section Serving.

Context {P : PandasRuntime}.

(** X21: a process started without both credentials keeps serving: a valid
    request to the delays route is answered with the envelope around the
    error payload, the row count route with the dictionary that reports the
    missing client, and nothing is sent to the store. *)
Theorem unconfigured_process_answers_with_errors
  (env : environment) (p : process) (req : delays_request)
  (execution_time : Q) (n : Z) (s : string) :
  truthy (SUPABASE_URL env) && truthy (SUPABASE_KEY env) = false ->
  supabase_handle p = None ->
  validate_limit (limit_param req) = Some n ->
  validate_order (order_param req) = Some s ->
  (exists body,
     app_bind (startup_event env) (fun _ => api_delays req execution_time) p
     = (Returned (Handled body), p)
     /\ dict_get "result" body
        = Some (PyDict [("error", PyStr "Supabase client not initialized")]))
  /\ app_bind (startup_event env) (fun _ => get_count_rows) p
     = (Returned (ODict [("row_count", not_initialized)]), p).
Proof.
  intros Hcred Hnone Hn Hs.
  assert (Hinit : initialize_supabase env p = (Returned tt, p)).
  { unfold initialize_supabase.
    destruct (SUPABASE_URL env) as [url|], (SUPABASE_KEY env) as [key|];
      try reflexivity.
    now rewrite Hcred. }
  assert (Hstart : startup_event env p = (Returned tt, p)).
  { unfold startup_event, app_bind. rewrite Hinit.
    unfold check_table_exists. now rewrite Hnone. }
  unfold app_bind. rewrite Hstart. split.
  - unfold api_delays. rewrite in_process_run.
    assert (Hrun : get_avg_delay_by_station
                     (validate_table_name (table_name_param req)) n s
                     (engine_view p)
                   = (Returned
                        [("error", PyStr "Supabase client not initialized")],
                      engine_view p)).
    { apply run_not_initialized. unfold engine_view. now rewrite Hnone. }
    rewrite (get_delays_run req execution_time _ n s _ _ Hn Hs Hrun).
    cbn [fst snd]. eexists. split.
    + apply f_equal2; [reflexivity|].
      unfold engine_view. simpl. rewrite app_nil_r. now destruct p.
    + reflexivity.
  - unfold get_count_rows, get_table_info, app_bind, app_ret.
    now rewrite Hnone.
Qed.

(** X22: a process started with both credentials serves the delays route
    from the client [create_client] made: the answer is the one
    [get_delays] gives in a world that holds this client, and the store has
    received the count query of the start-up and then the one select of the
    aggregation. *)
Theorem configured_process_serves_the_aggregation
  (env : environment) (p : process) (svc : Service) (url key : string)
  (req : delays_request) (execution_time : Q) (n : Z) (s : string) :
  SUPABASE_URL env = Some url -> SUPABASE_KEY env = Some key ->
  url <> "" -> key <> "" ->
  create_client env url key = Created svc ->
  validate_limit (limit_param req) = Some n ->
  validate_order (order_param req) = Some s ->
  app_bind (startup_event env) (fun _ => api_delays req execution_time) p
  = (fst (get_delays req execution_time
            (mk_world (Some (select_where svc)) [])),
     mk_process (Some svc)
       (sent p
        ++ [SelectCount "tgv-data";
            SelectWhere
              (national_query
                 (validate_table_name (table_name_param req)))])).
Proof.
  intros Hu Hk Hune Hkne Hcreate Hn Hs.
  assert (Hinit : initialize_supabase env p
                  = (Returned tt, mk_process (Some svc) (sent p))).
  { unfold initialize_supabase. rewrite Hu, Hk. simpl.
    apply String.eqb_neq in Hune, Hkne. now rewrite Hune, Hkne, Hcreate. }
  assert (Hstart : startup_event env p
                   = (Returned tt,
                      mk_process (Some svc)
                                 (sent p ++ [SelectCount "tgv-data"]))).
  { unfold startup_event, app_bind. rewrite Hinit.
    unfold check_table_exists, app_try, app_bind, app_ret, execute_count.
    simpl. destruct (select_count svc "tgv-data"); reflexivity. }
  unfold app_bind. rewrite Hstart.
  unfold api_delays. rewrite in_process_run.
  unfold engine_view. simpl.
  f_equal. f_equal.
  unfold get_delays, bind. rewrite Hn, Hs.
  unfold get_avg_delay_by_station, try_except, bind, execute, ret. simpl.
  destruct (select_where svc _) as [e|[|r rest]]; simpl;
    rewrite <- app_assoc; reflexivity.
Qed.

End Serving.

(** ** The further properties on concrete stores *)

Lemma returned_stations_are_distinct_witness :
  exists l,
    result_data
      (fst (get_avg_delay_by_station "tgv-data" 10 "asc"
              (store with_bad_record)))
    = Some l
    /\ NoDup (map avg_gare_depart l).
Proof.
  apply (returned_stations_are_distinct
           (store with_bad_record) (fun _ => Result with_bad_record)
           "tgv-data" "asc" 10 with_bad_record); reflexivity.
Defined.

Lemma returned_stations_are_the_fetched_ones_witness :
  exists l,
    result_data
      (fst (get_avg_delay_by_station "tgv-data" 1 "desc"
              (store with_bad_record)))
    = Some l
    /\ (forall k, In k (map avg_gare_depart l) ->
                  In (Some k) (map gare_depart with_bad_record))
    /\ (Z.of_nat (List.length (distinct_stations with_bad_record)) <= 1 ->
        forall k, In (Some k) (map gare_depart with_bad_record) ->
                  In k (map avg_gare_depart l)).
Proof.
  apply (returned_stations_are_the_fetched_ones
           (store with_bad_record) (fun _ => Result with_bad_record)
           "tgv-data" "desc" 1 with_bad_record); reflexivity.
Defined.

Lemma smaller_limit_is_a_prefix_witness :
  exists l,
    result_data
      (fst (get_avg_delay_by_station "tgv-data" 5 "asc"
              (store with_bad_record)))
    = Some l
    /\ result_data
         (fst (get_avg_delay_by_station "tgv-data" 1 "asc"
                 (store with_bad_record)))
       = Some (firstn (Z.to_nat 1) l).
Proof.
  apply (smaller_limit_is_a_prefix
           (store with_bad_record) (fun _ => Result with_bad_record)
           "tgv-data" "asc" 1 5 with_bad_record);
    [reflexivity|reflexivity|lia].
Defined.

Lemma null_station_records_are_ignored_witness :
  result_data
    (fst (get_avg_delay_by_station "tgv-data" 10 "asc"
            (store with_null_station)))
  = result_data
      (fst (get_avg_delay_by_station "tgv-data" 10 "asc"
              (store without_null_station))).
Proof.
  apply (null_station_records_are_ignored
           (store with_null_station) (store without_null_station)
           (fun _ => Result with_null_station)
           (fun _ => Result without_null_station)
           "tgv-data" "asc" 10
           [national "A" (JNumber 10)] [national "B" (JNumber 5)]
           (mk_row None (JNumber 7) (Some "National"))); reflexivity.
Defined.

Lemma negative_limit_drops_the_last_groups_witness :
  exists d l,
    fst (get_avg_delay_by_station "tgv-data" (-1) "asc"
           (store with_bad_record))
    = Returned d
    /\ dict_get "error" d = None
    /\ dict_get "data" d = Some (PyRecords l)
    /\ dict_get "count" d = Some (PyInt (Z.of_nat (List.length l)))
    /\ List.length l
       = (List.length (distinct_stations with_bad_record)
          - Z.to_nat (- (-1)))%nat
    /\ l = firstn (List.length l)
             (sort_values (groupby_mean (DataFrame with_bad_record))
                          (sort_ascending "asc")).
Proof.
  apply (negative_limit_drops_the_last_groups
           (store with_bad_record) (fun _ => Result with_bad_record)
           "tgv-data" "asc" (-1) with_bad_record);
    [reflexivity|reflexivity|discriminate|lia].
Defined.

Lemma records_without_station_give_count_zero_witness :
  exists d,
    fst (get_avg_delay_by_station "tgv-data" 10 "asc"
           (store [mk_row None (JNumber 7) (Some "National")]))
    = Returned d
    /\ dict_get "data" d = Some (PyRecords [])
    /\ dict_get "count" d = Some (PyInt 0)
    /\ dict_get "message" d = None
    /\ dict_get "error" d = None.
Proof.
  apply (records_without_station_give_count_zero
           (store [mk_row None (JNumber 7) (Some "National")])
           (fun _ => Result [mk_row None (JNumber 7) (Some "National")])
           "tgv-data" "asc" 10 [mk_row None (JNumber 7) (Some "National")]).
  - reflexivity.
  - reflexivity.
  - discriminate.
  - intros r [<-|[]]. reflexivity.
Defined.

Lemma descending_is_ascending_reversed_witness :
  exists la ld,
    result_data
      (fst (get_avg_delay_by_station "tgv-data" 10 "asc"
              (store with_bad_record)))
    = Some la
    /\ result_data
         (fst (get_avg_delay_by_station "tgv-data" 10 "desc"
                 (store with_bad_record)))
       = Some ld
    /\ ((forall a, In a la -> avg_retard_moyen_depart a <> NaN) ->
        (forall a b, In a la -> In b la ->
                     same_mean (avg_retard_moyen_depart a)
                               (avg_retard_moyen_depart b) -> a = b) ->
        ld = rev la).
Proof.
  apply (descending_is_ascending_reversed
           (store with_bad_record) (fun _ => Result with_bad_record)
           "tgv-data" 10 with_bad_record);
    [reflexivity|reflexivity|vm_compute; discriminate].
Defined.

Lemma route_returns_at_most_limit_stations_witness :
  exists body result l,
    fst (get_delays default_request 3 (store unparseable_and_numeric))
    = Returned (Handled body)
    /\ dict_get "result" body = Some (PyDict result)
    /\ dict_get "data" result = Some (PyRecords l)
    /\ dict_get "count" result = Some (PyInt (Z.of_nat (List.length l)))
    /\ List.length l
       = Nat.min (List.length (distinct_stations unparseable_and_numeric))
                 (Z.to_nat 10)
    /\ (List.length l <= 100)%nat
    /\ Sorted (numeric_then_nan (String.eqb "asc" "asc"))
         (map avg_retard_moyen_depart l)
    /\ ((exists r, In r l /\ avg_retard_moyen_depart r = NaN) ->
        respond (fst (get_delays default_request 3
                        (store unparseable_and_numeric)))
        = Response500).
Proof.
  apply (route_returns_at_most_limit_stations
           default_request 3 (store unparseable_and_numeric)
           (fun _ => Result unparseable_and_numeric)
           unparseable_and_numeric 10 "asc");
    [reflexivity|reflexivity|reflexivity|reflexivity|discriminate].
Defined.

Lemma route_and_function_describe_the_same_direction_witness :
  exists body result,
    fst (get_delays (mk_request None (IntValue 2) (Some "desc")) 3
           (store with_bad_record))
    = Returned (Handled body)
    /\ dict_get "result" body = Some (PyDict result)
    /\ dict_get "description" body
       = Some (PyStr "Top 2 worst (highest delays) stations")
    /\ dict_get "description" result
       = Some (PyStr
                 "Top 2 National service stations with highest average delays").
Proof.
  destruct (route_and_function_describe_the_same_direction
              (mk_request None (IntValue 2) (Some "desc")) 3
              (store with_bad_record) (fun _ => Result with_bad_record)
              with_bad_record 2 "desc"
              eq_refl eq_refl eq_refl eq_refl)
    as (body & result & H1 & H2 & _ & _ & _ & [[H _]|[_ [H3 H4]]]).
  - discriminate.
  - discriminate H.
  - exists body, result. repeat split; assumption.
Defined.

Lemma unique_count_is_at_most_total_witness :
  exists d unique total,
    fst (get_unique_stations_count_from_db "tgv-data"
           (mk_process (Some (table_service with_null_station)) []))
    = Returned d
    /\ dict_get "unique_stations_count" d = Some (PyInt unique)
    /\ dict_get "total_records" d = Some (PyInt total)
    /\ unique
       = Z.of_nat
           (List.length
              (nodup string_dec (named (map gare_depart with_null_station))))
    /\ total = Z.of_nat (List.length (map gare_depart with_null_station))
    /\ 0 <= unique <= total
    /\ 0 < total
    /\ (unique = 0 <->
        forall v, In v (map gare_depart with_null_station) -> v = None).
Proof.
  apply (unique_count_is_at_most_total
           (mk_process (Some (table_service with_null_station)) [])
           (table_service with_null_station) "tgv-data"
           (map gare_depart with_null_station));
    [reflexivity|reflexivity|discriminate].
Defined.

Lemma unique_count_ignores_row_order_witness :
  fst (get_unique_stations_count_from_db "tgv-data"
         (mk_process (Some (table_service tied_b_first)) []))
  = fst (get_unique_stations_count_from_db "tgv-data"
           (mk_process (Some (table_service tied_a_first)) [])).
Proof.
  apply (unique_count_ignores_row_order
           (mk_process (Some (table_service tied_b_first)) [])
           (mk_process (Some (table_service tied_a_first)) [])
           (table_service tied_b_first) (table_service tied_a_first)
           "tgv-data"
           (map gare_depart tied_b_first) (map gare_depart tied_a_first));
    [reflexivity|reflexivity|reflexivity|reflexivity|apply perm_swap].
Defined.

Lemma unique_count_agrees_with_aggregation_witness :
  exists d1 d2 n,
    fst (in_process (get_avg_delay_by_station "tgv-data" 10 "asc")
           (mk_process (Some (table_service with_null_station)) []))
    = Returned d1
    /\ fst (get_unique_stations_count_from_db "tgv-data"
              (mk_process (Some (table_service with_null_station)) []))
       = Returned d2
    /\ dict_get "count" d1 = Some (PyInt n)
    /\ dict_get "unique_stations_count" d2 = Some (PyInt n).
Proof.
  apply (unique_count_agrees_with_aggregation
           (mk_process (Some (table_service with_null_station)) [])
           (table_service with_null_station) "tgv-data" "asc" 10
           with_null_station);
    [reflexivity|reflexivity|reflexivity|discriminate|
     vm_compute; discriminate].
Defined.

Lemma row_count_without_client_is_a_dict_witness :
  get_count_rows fresh
  = (Returned
       (ODict [("row_count",
                ODict [("exists", OBool false);
                       ("error", OStr "Supabase client not initialized")])]),
     fresh)
  /\ get_table_info "tgv-data" fresh
     = (Returned
          (ODict [("exists", OBool false);
                  ("error", OStr "Supabase client not initialized")]), fresh).
Proof.
  apply (row_count_without_client_is_a_dict fresh). reflexivity.
Defined.

Lemma row_count_with_client_witness :
  fst (get_count_rows (mk_process (Some (failing_service "boom")) []))
  = Raised "boom"
  /\ fst (check_table_exists "tgv-data"
            (mk_process (Some (failing_service "boom")) []))
     = Returned ONone.
Proof.
  destruct (row_count_with_client
              (mk_process (Some (failing_service "boom")) [])
              (failing_service "boom") eq_refl)
    as (_ & _ & _ & H).
  destruct (H "boom" eq_refl) as (H1 & _ & H3). split; assumption.
Defined.

Lemma startup_survives_the_store_witness :
  startup_event (configured (failing_service "boom")) fresh
  = (Returned tt,
     mk_process (Some (failing_service "boom")) [SelectCount "tgv-data"]).
Proof.
  apply (startup_survives_the_store
           (configured (failing_service "boom")) fresh
           (mk_process (Some (failing_service "boom")) [])).
  reflexivity.
Defined.

Lemma unconfigured_process_answers_with_errors_witness :
  (exists body,
     app_bind (startup_event unconfigured)
              (fun _ => api_delays default_request 3) fresh
     = (Returned (Handled body), fresh)
     /\ dict_get "result" body
        = Some (PyDict [("error", PyStr "Supabase client not initialized")]))
  /\ app_bind (startup_event unconfigured) (fun _ => get_count_rows) fresh
     = (Returned (ODict [("row_count", not_initialized)]), fresh).
Proof.
  apply (unconfigured_process_answers_with_errors
           unconfigured fresh default_request 3 10 "asc"); reflexivity.
Defined.

Lemma configured_process_serves_the_aggregation_witness :
  app_bind (startup_event (configured (table_service with_bad_record)))
           (fun _ => api_delays default_request 3) fresh
  = (fst (get_delays default_request 3
            (mk_world (Some (select_where (table_service with_bad_record)))
                      [])),
     mk_process (Some (table_service with_bad_record))
       (sent fresh
        ++ [SelectCount "tgv-data";
            SelectWhere
              (national_query
                 (validate_table_name (table_name_param default_request)))])).
Proof.
  apply (configured_process_serves_the_aggregation
           (configured (table_service with_bad_record)) fresh
           (table_service with_bad_record)
           "https://example.supabase.co" "key" default_request 3 10 "asc");
    try reflexivity; discriminate.
Defined.
